(** * ec2_asg_copy: copying an Auto Scaling group within a region

    A shallow embedding of [src/cloud/amazon/ec2_asg_copy.py] and the
    properties its specification states about it.

    The module is a sequential script against two remote services (boto's
    autoscale and cloudwatch connections).  The embedding keeps that shape:

    - Python values that reach the script through [module.params] are
      [PyVal]s, and [module.params] is a finite map from keys to values;
    - boto's objects ([AutoScalingGroup], [ScalingPolicy], [MetricAlarm],
      [LaunchConfiguration]) are records;
    - the two connections are a [Provider]: a state type and one function
      per API method, each of which may answer, or raise BotoServerError;
    - the script runs in a small monad that threads the provider's state,
      appends every API call (with its reply) to a trace, and propagates
      Python exceptions;
    - names the file uses without binding them (they can only come from the
      two star imports) are looked up in an explicit [Globals] record. *)

From Stdlib Require Import ZArith.
From stdpp Require Import base option list strings gmap pretty.

Set Warnings "-clear-no-such-hyp".

Local Open Scope Z_scope.
Local Open Scope string_scope.
Local Open Scope list_scope.

(** ** Python values *)

(** The values a playbook can put under a parameter key. *)
Inductive PyVal :=
| PNone
| PBool (b : bool)
| PInt (z : Z)
| PStr (s : string).

#[global] Instance PyVal_eq_dec : EqDecision PyVal.
Proof. solve_decision. Defined.

(** Python truthiness, as used by [x if load_balancers else y]. *)
Definition truthy (v : PyVal) : bool :=
  match v with
  | PNone => false
  | PBool b => b
  | PInt z => negb (Z.eqb z 0)
  | PStr s => negb (String.eqb s "")
  end.

(** [v is True]. *)
Definition is_True (v : PyVal) : bool :=
  match v with
  | PBool true => true
  | _ => false
  end.

(** [str(v)], which is what ['{}'.format(v)] inserts. *)
Definition py_str (v : PyVal) : string :=
  match v with
  | PNone => "None"
  | PBool true => "True"
  | PBool false => "False"
  | PInt z => pretty z
  | PStr s => s
  end.

(** [dict.get(key)]: the value, or None when the key is missing. *)
Definition dict_get (d : gmap string PyVal) (key : string) : PyVal :=
  default PNone (d !! key).

(** ** boto's objects *)

Module boto.

Record LaunchConfiguration := {
  lc_name : string;
  image_id : string;
  instance_type : string
}.

Record Tag := {
  tag_key : string;
  tag_value : string;
  propagate_at_launch : bool
}.

(** [AutoScalingGroup]: the fields are the keyword arguments of lines
    99-114 ([group_name] is stored as [name], the attribute line 132
    reads).  [connection] is the handle of the connection the group was
    fetched through. *)
Record AutoScalingGroup := {
  name : PyVal;
  load_balancers : list PyVal;
  availability_zones : list string;
  launch_config : LaunchConfiguration;
  min_size : Z;
  max_size : Z;
  desired_capacity : Z;
  vpc_zone_identifier : string;
  connection : nat;
  tags : list Tag;
  health_check_period : Z;
  health_check_type : string;
  default_cooldown : Z;
  termination_policies : list string
}.

(** [ScalingPolicy].  boto keeps the name of the policy's group in the
    attribute [as_name]: it is what a policy fetched by [get_all_policies]
    carries, and what [create_scaling_policy] sends as the policy's
    AutoScalingGroupName.  The class has no attribute [as_group]; line 132
    creates one on the object, and the optional field stands for it
    ([None]: never assigned). *)
Record ScalingPolicy := {
  policy_name : string;
  as_name : PyVal;
  as_group : option PyVal;
  adjustment_type : string;
  scaling_adjustment : Z;
  cooldown : Z
}.

(** A dimension value: boto parses a list of names from the service, the
    script stores a bare name. *)
Inductive DimValue :=
| DimNames (names : list string)
| DimName (v : PyVal).

Record MetricAlarm := {
  alarm_name : string;
  metric : string;
  comparison : string;
  threshold : Z;
  dimensions : gmap string DimValue;
  alarm_actions : list string
}.

(** [policy.as_group = v]: the assignment creates or replaces the
    attribute [as_group] and leaves [as_name] as it is. *)
Definition set_as_group (policy : ScalingPolicy) (v : PyVal) : ScalingPolicy :=
  {| policy_name := policy_name policy;
     as_name := as_name policy;
     as_group := Some v;
     adjustment_type := adjustment_type policy;
     scaling_adjustment := scaling_adjustment policy;
     cooldown := cooldown policy |}.

(** [alarm.dimensions[key] = v] *)
Definition set_dimension (alarm : MetricAlarm) (key : string) (v : PyVal)
  : MetricAlarm :=
  {| alarm_name := alarm_name alarm;
     metric := metric alarm;
     comparison := comparison alarm;
     threshold := threshold alarm;
     dimensions := <[key := DimName v]> (dimensions alarm);
     alarm_actions := alarm_actions alarm |}.

End boto.
Import boto.

(** The mapping [get_properties] returns and [exit_json] emits. *)
Abbreviation Properties := (gmap string PyVal).

(** ** Exceptions *)

(** [FailJson msg] is the SystemExit that [module.fail_json(msg=msg)]
    raises after emitting [msg] with a non-zero status. *)
Inductive Exn :=
| BotoServerError (msg : string)
| IndexError
| NameError (name : string)
| TypeError (msg : string)
| FailJson (msg : string).

(** ** API calls and traces *)

Inductive Call :=
| GetAllGroups (names : list PyVal)
| GetAllPolicies (group : PyVal)
| GetAllLaunchConfigurations (names : list PyVal)
| CreateAutoScalingGroup (ag : AutoScalingGroup)
| CreateScalingPolicy (policy : ScalingPolicy)
| DescribeAlarms (alarm_names : list string)
| CreateAlarm (alarm : MetricAlarm).

Inductive Reply :=
| Groups (l : list AutoScalingGroup)
| Policies (l : list ScalingPolicy)
| LaunchConfigurations (l : list LaunchConfiguration)
| Alarms (l : list MetricAlarm)
| Created
| Rejected (msg : string).

Abbreviation Event := (Call * Reply)%type.

Definition is_creation (c : Call) : bool :=
  match c with
  | CreateAutoScalingGroup _ | CreateScalingPolicy _ | CreateAlarm _ => true
  | _ => false
  end.

Definition is_policy_or_alarm_creation (c : Call) : bool :=
  match c with
  | CreateScalingPolicy _ | CreateAlarm _ => true
  | _ => false
  end.

(** ** The provider *)

(** The autoscale and cloudwatch services: a state, and for each method
    the script calls a function from the arguments and the state to a reply
    (or the message of a BotoServerError) and the next state. *)
Record Provider := {
  World : Type;
  get_all_groups :
    list PyVal -> World -> (string + list AutoScalingGroup) * World;
  get_all_policies :
    PyVal -> World -> (string + list ScalingPolicy) * World;
  get_all_launch_configurations :
    list PyVal -> World -> (string + list LaunchConfiguration) * World;
  create_auto_scaling_group :
    AutoScalingGroup -> World -> (string + unit) * World;
  create_scaling_policy :
    ScalingPolicy -> World -> (string + unit) * World;
  describe_alarms :
    list string -> World -> (string + list MetricAlarm) * World;
  create_alarm :
    MetricAlarm -> World -> (string + unit) * World
}.

(** ** The monad the script runs in *)

Record Run (W A : Type) := mkRun {
  outcome : Exn + A;
  world : W;
  trace : list Event
}.
Arguments mkRun {W A}.
Arguments outcome {W A}.
Arguments world {W A}.
Arguments trace {W A}.

Definition M (W A : Type) : Type := W -> Run W A.

Definition ret {W A} (a : A) : M W A := fun w => mkRun (inr a) w [].

Definition raise {W A} (e : Exn) : M W A := fun w => mkRun (inl e) w [].

(** The run [r], with the events [t] logged before it. *)
Definition prepend {W A} (t : list Event) (r : Run W A) : Run W A :=
  match r with
  | mkRun o w t' => mkRun o w (t ++ t')
  end.

Definition bind {W A B} (m : M W A) (k : A -> M W B) : M W B :=
  fun w =>
    match m w with
    | mkRun (inl e) w1 t1 => mkRun (inl e) w1 t1
    | mkRun (inr a) w1 t1 => prepend t1 (k a w1)
    end.

(** [try: body / except BotoServerError, e: handler(str(e))]: every other
    exception passes through. *)
Definition try_except_BotoServerError {W A}
    (body : M W A) (handler : string -> M W A) : M W A :=
  fun w =>
    match body w with
    | mkRun (inl (BotoServerError msg)) w1 t1 => prepend t1 (handler msg w1)
    | r => r
    end.

Declare Scope py_scope.
Delimit Scope py_scope with py.
Notation "x <- m ;; k" := (bind m (fun x => k))
  (at level 100, m at next level, right associativity) : py_scope.
Notation "m ;; k" := (bind m (fun _ => k))
  (at level 100, right associativity) : py_scope.
Local Open Scope py_scope.

(** [module.fail_json(msg=msg)] *)
Definition fail_json {W A} (msg : string) : M W A := raise (FailJson msg).

(** [l[0]] *)
Definition getitem0 {W A} (l : list A) : M W A :=
  match l with
  | x :: _ => ret x
  | [] => raise IndexError
  end.

(** One API call: run the provider's method, log the call with its reply,
    and raise BotoServerError when the provider rejects it. *)
Definition api {W A} (c : Call) (reply : A -> Reply)
    (method : W -> (string + A) * W) : M W A :=
  fun w =>
    match method w with
    | (inr a, w') => mkRun (inr a) w' [(c, reply a)]
    | (inl msg, w') => mkRun (inl (BotoServerError msg)) w' [(c, Rejected msg)]
    end.

(** Evaluating a global name: [None] is an unbound name. *)
Definition global {W A} (id : string) (binding : option A) : M W A :=
  match binding with
  | Some v => ret v
  | None => raise (NameError id)
  end.

(** Calling a function that is not part of the file: it may read and
    advance the provider's state, and return or raise. *)
Definition call_external {W A} (f : W -> (Exn + A) * W) : M W A :=
  fun w => let '(res, w') := f w in mkRun res w' [].

(** ** The script *)

Section Script.

Context (P : Provider).

Abbreviation W := (World P).

(** *** Names the file does not bind

    [wait_for_new_inst], [connection], [desired_capacity], [wait_for_elb]
    and [get_properties] are used by [copy_auto_scaling_group] and bound
    nowhere in the file: each is looked up in the module's globals, where
    only the star imports of lines 57-58 can have put it.  [None] is an
    unbound name, and evaluating it raises NameError. *)
Record Globals := {
  glob_wait_for_new_inst :
    option (Properties -> PyVal -> PyVal -> PyVal -> PyVal -> string ->
            W -> (Exn + unit) * W);
  glob_connection : option PyVal;
  glob_desired_capacity : option PyVal;
  glob_wait_for_elb :
    option (Properties -> PyVal -> W -> (Exn + unit) * W);
  glob_get_properties : option (AutoScalingGroup -> Exn + Properties)
}.

(** *** The two connections *)

Definition as_get_all_groups (names : list PyVal) : M W (list AutoScalingGroup) :=
  api (GetAllGroups names) Groups (get_all_groups P names).

Definition as_get_all_policies (group : PyVal) : M W (list ScalingPolicy) :=
  api (GetAllPolicies group) Policies (get_all_policies P group).

Definition as_get_all_launch_configurations (names : list PyVal)
  : M W (list LaunchConfiguration) :=
  api (GetAllLaunchConfigurations names) LaunchConfigurations
      (get_all_launch_configurations P names).

Definition as_create_auto_scaling_group (ag : AutoScalingGroup) : M W unit :=
  api (CreateAutoScalingGroup ag) (fun _ => Created)
      (create_auto_scaling_group P ag).

Definition as_create_scaling_policy (policy : ScalingPolicy) : M W unit :=
  api (CreateScalingPolicy policy) (fun _ => Created)
      (create_scaling_policy P policy).

Definition cw_describe_alarms (alarm_names : list string)
  : M W (list MetricAlarm) :=
  api (DescribeAlarms alarm_names) Alarms (describe_alarms P alarm_names).

Definition cw_create_alarm (alarm : MetricAlarm) : M W unit :=
  api (CreateAlarm alarm) (fun _ => Created) (create_alarm P alarm).

(** *** copy_auto_scaling_group *)

(** Lines 134-137: the alarm a policy is paired with, by naming
    convention. *)
Definition alarm_name_for (source_asg_name : PyVal) (policy : ScalingPolicy)
  : string :=
  if (0 <? scaling_adjustment policy)%Z
  then py_str source_asg_name +:+ "-ScaleUp"
  else py_str source_asg_name +:+ "-ScaleDown".

(** Lines 131-141, the body of [for policy in source_policies]. *)
Fixpoint copy_policies (source_asg_name : PyVal) (as_group : AutoScalingGroup)
    (source_policies : list ScalingPolicy) : M W unit :=
  match source_policies with
  | [] => ret tt
  | policy :: rest =>
      let policy := set_as_group policy (name as_group) in
      as_create_scaling_policy policy ;;
      let alarm_name := alarm_name_for source_asg_name policy in
      alarms <- cw_describe_alarms [alarm_name] ;;
      alarm <- getitem0 alarms ;;
      let alarm := set_dimension alarm "AutoScalingGroupName" (name as_group) in
      cw_create_alarm alarm ;;
      copy_policies source_asg_name as_group rest
  end.

(** Lines 118-126.  Python evaluates the callee, then the arguments left to
    right, then calls. *)
Definition wait_for_instances_block (g : Globals) (params : Properties)
    (group_name wait_timeout : PyVal) : M W unit :=
  wait_for_new_inst <- global "wait_for_new_inst" (glob_wait_for_new_inst g) ;;
  connection <- global "connection" (glob_connection g) ;;
  desired_capacity <- global "desired_capacity" (glob_desired_capacity g) ;;
  call_external
    (wait_for_new_inst params connection group_name wait_timeout
       desired_capacity "viable_instances") ;;
  wait_for_elb <- global "wait_for_elb" (glob_wait_for_elb g) ;;
  call_external (wait_for_elb params group_name).

(** Lines 99-114. *)
Definition new_group (group_name load_balancers : PyVal)
    (source_group : AutoScalingGroup) (launch_config : LaunchConfiguration)
  : AutoScalingGroup :=
  {| name := group_name;
     load_balancers :=
       if truthy load_balancers then [load_balancers]
       else boto.load_balancers source_group;
     availability_zones := availability_zones source_group;
     launch_config := launch_config;
     min_size := min_size source_group;
     max_size := max_size source_group;
     desired_capacity := desired_capacity source_group;
     vpc_zone_identifier := vpc_zone_identifier source_group;
     connection := connection source_group;
     tags := tags source_group;
     health_check_period := health_check_period source_group;
     health_check_type := health_check_type source_group;
     default_cooldown := default_cooldown source_group;
     termination_policies := termination_policies source_group |}.

(** Lines 72-150.  The outer [try:] of line 87 has no [except] and no
    [finally], a form that Python's grammar does not accept, so the source
    does not say what becomes of an exception raised at lines 89-97.  The
    statements are taken as they are written and the [try:] as handling
    nothing; no property below is about the outcome of a BotoServerError
    raised by one of the three lookups of lines 89-97. *)
Definition copy_auto_scaling_group (g : Globals) (params : Properties)
  : M W (bool * Properties) :=
  let source_asg_name := dict_get params "source_asg_name" in
  let group_name := dict_get params "group_name" in
  let launch_config_name := dict_get params "launch_config_name" in
  let load_balancers := dict_get params "launch_config_name" in
  let wait_for_instances := dict_get params "wait_for_instances" in
  let wait_timeout := dict_get params "wait_timeout" in
  groups <- as_get_all_groups [source_asg_name] ;;
  if (length groups =? 1)%nat then
    source_group <- getitem0 groups ;;
    source_policies <- as_get_all_policies source_asg_name ;;
    launch_configs <- as_get_all_launch_configurations [launch_config_name] ;;
    launch_config <- getitem0 launch_configs ;;
    let ag := new_group group_name load_balancers source_group launch_config in
    try_except_BotoServerError
      (as_create_auto_scaling_group ag ;;
       (if is_True wait_for_instances
        then wait_for_instances_block g params group_name wait_timeout
        else ret tt) ;;
       refetched <- as_get_all_groups [group_name] ;;
       as_group <- getitem0 refetched ;;
       get_properties <- global "get_properties" (glob_get_properties g) ;;
       asg_properties <- call_external (fun w => (get_properties as_group, w)) ;;
       copy_policies source_asg_name as_group source_policies ;;
       let changed := true in
       ret (changed, asg_properties))
      (fun msg => fail_json msg)
  else
    fail_json ("Unable to find source group " +:+ py_str source_asg_name).

End Script.

(** ** The entry point *)

(** An entry of an argument spec, [dict(required=...)]. *)
Record ArgOpts := { required : bool }.

(** [d.update(other)]: the keys of [other] win. *)
Definition update {A} (d other : gmap string A) : gmap string A := other ∪ d.

(** [AnsibleModule(argument_spec=...)] is Ansible's, not this file's.  Its
    documented contract is what [main] relies on: a supplied key that the
    spec does not declare is refused ("unsupported parameter"), a required
    key that is missing is refused, and every declared key that was not
    supplied is set to its default, None.  An alias counts as a declared
    key of its own. *)
Definition AnsibleModule {W} (argument_spec : gmap string ArgOpts)
    (args : Properties) : M W Properties :=
  if decide (dom args ⊆ dom argument_spec) then
    if decide (dom (filter (fun kv => required kv.2 = true) argument_spec)
                 ⊆ dom args)
    then ret (args ∪ ((fun _ => PNone) <$> argument_spec))
    else fail_json "missing required arguments"
  else fail_json "unsupported parameter for module".

(** What [connect_to_aws] did for the two services: it returned two
    connections (here only whether each is truthy matters; the
    connections themselves are the [Provider]), or raised. *)
Inductive Connections :=
| Connected (as_connection cloudwatch_connection : bool)
| NoAuthHandlerFound (msg : string).

(** [module.exit_json(changed=True, **properties)]: the emitted mapping.
    Python refuses a keyword given twice. *)
Definition exit_json {W} (properties : Properties) : M W Properties :=
  match properties !! "changed" with
  | Some _ => raise (TypeError "got multiple values for keyword argument")
  | None => ret (<["changed" := PBool true]> properties)
  end.

(** Lines 154-158: the keys the module declares, on top of those
    [ansible.module_utils.ec2.ec2_argument_spec()] returns. *)
Definition argument_spec (ec2_argument_spec : gmap string ArgOpts)
  : gmap string ArgOpts :=
  update ec2_argument_spec
    (<["region" := {| required := true |}]>
     (<["source_asg_name" := {| required := true |}]>
      (<["name" := {| required := true |}]> ∅))).

Section Main.

Context (P : Provider).

(** Lines 153-182.  [HAS_BOTO] is the flag of lines 61-69, [args] the
    arguments of the task.  The region that [get_aws_connection_info]
    reports is the one under the "region" key. *)
Definition main (g : Globals P) (ec2_argument_spec : gmap string ArgOpts)
    (HAS_BOTO : bool) (connect_to_aws : Connections) (args : Properties)
  : M (World P) Properties :=
  params <- AnsibleModule (argument_spec ec2_argument_spec) args ;;
  (if negb HAS_BOTO then fail_json "boto required for this module"
   else ret tt) ;;
  let region := dict_get params "region" in
  (match connect_to_aws with
   | Connected as_connection cloudwatch_connection =>
       if negb as_connection || negb cloudwatch_connection
       then fail_json ("failed to connect to AWS for the given region: "
                       +:+ py_str region)
       else ret tt
   | NoAuthHandlerFound msg => fail_json msg
   end) ;;
  result <- copy_auto_scaling_group P g params ;;
  let '(changed, new_asg_properties) := result in
  exit_json new_asg_properties.

End Main.

(** ** An in-memory provider

    A small account to run the script against: lookups filter by name,
    creating a group whose name is taken is rejected, everything else is
    appended. *)

Record Cloud := {
  cloud_groups : list AutoScalingGroup;
  cloud_policies : list ScalingPolicy;
  cloud_launch_configurations : list LaunchConfiguration;
  cloud_alarms : list MetricAlarm
}.

Definition cloud_get_all_groups (names : list PyVal) (c : Cloud)
  : (string + list AutoScalingGroup) * Cloud :=
  (inr (filter (fun g => name g ∈ names) (cloud_groups c)), c).

Definition cloud_get_all_policies (group : PyVal) (c : Cloud)
  : (string + list ScalingPolicy) * Cloud :=
  (inr (filter (fun p => as_name p = group) (cloud_policies c)), c).

Definition cloud_get_all_launch_configurations (names : list PyVal) (c : Cloud)
  : (string + list LaunchConfiguration) * Cloud :=
  (inr (filter (fun l => PStr (lc_name l) ∈ names)
          (cloud_launch_configurations c)), c).

Definition already_exists : string :=
  "AlreadyExists: AutoScalingGroup by this name already exists".

Definition cloud_create_auto_scaling_group (ag : AutoScalingGroup) (c : Cloud)
  : (string + unit) * Cloud :=
  if decide (name ag ∈ name <$> cloud_groups c)
  then (inl already_exists, c)
  else (inr tt,
        {| cloud_groups := cloud_groups c ++ [ag];
           cloud_policies := cloud_policies c;
           cloud_launch_configurations := cloud_launch_configurations c;
           cloud_alarms := cloud_alarms c |}).

Definition cloud_create_scaling_policy (p : ScalingPolicy) (c : Cloud)
  : (string + unit) * Cloud :=
  (inr tt,
   {| cloud_groups := cloud_groups c;
      cloud_policies := cloud_policies c ++ [p];
      cloud_launch_configurations := cloud_launch_configurations c;
      cloud_alarms := cloud_alarms c |}).

Definition cloud_describe_alarms (alarm_names : list string) (c : Cloud)
  : (string + list MetricAlarm) * Cloud :=
  (inr (filter (fun a => alarm_name a ∈ alarm_names) (cloud_alarms c)), c).

Definition cloud_create_alarm (a : MetricAlarm) (c : Cloud)
  : (string + unit) * Cloud :=
  (inr tt,
   {| cloud_groups := cloud_groups c;
      cloud_policies := cloud_policies c;
      cloud_launch_configurations := cloud_launch_configurations c;
      cloud_alarms := cloud_alarms c ++ [a] |}).

Definition InMemory : Provider :=
  {| World := Cloud;
     get_all_groups := cloud_get_all_groups;
     get_all_policies := cloud_get_all_policies;
     get_all_launch_configurations := cloud_get_all_launch_configurations;
     create_auto_scaling_group := cloud_create_auto_scaling_group;
     create_scaling_policy := cloud_create_scaling_policy;
     describe_alarms := cloud_describe_alarms;
     create_alarm := cloud_create_alarm |}.

(** *** The account of the specification's example *)

Definition lc_prod : LaunchConfiguration :=
  {| lc_name := "lc-prod"; image_id := "ami-1"; instance_type := "m3.medium" |}.

Definition lc_next : LaunchConfiguration :=
  {| lc_name := "lc-next"; image_id := "ami-2"; instance_type := "m3.medium" |}.

Definition asg_prod : AutoScalingGroup :=
  {| name := PStr "asg-prod";
     load_balancers := [PStr "elb-prod"];
     availability_zones := ["us-east-1a"; "us-east-1b"];
     launch_config := lc_prod;
     min_size := 2;
     max_size := 10;
     desired_capacity := 4;
     vpc_zone_identifier := "subnet-1,subnet-2";
     connection := 0%nat;
     tags := [{| tag_key := "env"; tag_value := "prod";
                 propagate_at_launch := true |}];
     health_check_period := 300;
     health_check_type := "ELB";
     default_cooldown := 120;
     termination_policies := ["OldestInstance"] |}.

Definition policy_up : ScalingPolicy :=
  {| policy_name := "up"; as_name := PStr "asg-prod"; as_group := None;
     adjustment_type := "PercentChangeInCapacity";
     scaling_adjustment := 10; cooldown := 60 |}.

Definition policy_down : ScalingPolicy :=
  {| policy_name := "down"; as_name := PStr "asg-prod"; as_group := None;
     adjustment_type := "PercentChangeInCapacity";
     scaling_adjustment := -10; cooldown := 60 |}.

Definition alarm_up : MetricAlarm :=
  {| alarm_name := "asg-prod-ScaleUp"; metric := "CPUUtilization";
     comparison := ">="; threshold := 80;
     dimensions := {[ "AutoScalingGroupName" := DimNames ["asg-prod"] ]};
     alarm_actions := ["up"] |}.

Definition alarm_down : MetricAlarm :=
  {| alarm_name := "asg-prod-ScaleDown"; metric := "CPUUtilization";
     comparison := "<="; threshold := 20;
     dimensions := {[ "AutoScalingGroupName" := DimNames ["asg-prod"] ]};
     alarm_actions := ["down"] |}.

Definition account : Cloud :=
  {| cloud_groups := [asg_prod];
     cloud_policies := [policy_up; policy_down];
     cloud_launch_configurations := [lc_prod; lc_next];
     cloud_alarms := [alarm_up; alarm_down] |}.

(** Globals in which only [get_properties] is bound (to a helper that
    reports the name and the sizes). *)
Definition report (g : AutoScalingGroup) : Exn + Properties :=
  inr (<["name" := name g]>
       (<["min_size" := PInt (min_size g)]>
        (<["max_size" := PInt (max_size g)]>
         (<["desired_capacity" := PInt (desired_capacity g)]> ∅)))).

Definition globals_with_report : Globals InMemory :=
  {| glob_wait_for_new_inst := None;
     glob_connection := None;
     glob_desired_capacity := None;
     glob_wait_for_elb := None;
     glob_get_properties := Some report |}.

(** Globals as the file itself leaves them: nothing bound. *)
Definition globals_of_file (P : Provider) : Globals P :=
  {| glob_wait_for_new_inst := None;
     glob_connection := None;
     glob_desired_capacity := None;
     glob_wait_for_elb := None;
     glob_get_properties := None |}.

(** The parameters [copy_auto_scaling_group] reads, for a copy of
    "asg-prod" named "asg-prod-copy". *)
Definition copy_params : Properties :=
  <["source_asg_name" := PStr "asg-prod"]>
  (<["group_name" := PStr "asg-prod-copy"]> ∅).

(** The spec [ec2_argument_spec()] returns in Ansible 2.0, aliases
    included. *)
Definition ansible_ec2_argument_spec : gmap string ArgOpts :=
  list_to_map
    ((fun k => (k, {| required := false |})) <$>
     ["region"; "aws_region"; "ec2_region";
      "ec2_url";
      "aws_secret_key"; "ec2_secret_key"; "secret_key";
      "aws_access_key"; "ec2_access_key"; "access_key";
      "validate_certs"; "profile";
      "security_token"; "access_token"]).


(** *** Further accounts and parameters *)

(** An account in which two groups answer to the source's name. *)
Definition account_twice : Cloud :=
  {| cloud_groups := [asg_prod; asg_prod];
     cloud_policies := cloud_policies account;
     cloud_launch_configurations := cloud_launch_configurations account;
     cloud_alarms := cloud_alarms account |}.

(** An account without the ScaleDown alarm. *)
Definition account_without_ScaleDown : Cloud :=
  {| cloud_groups := cloud_groups account;
     cloud_policies := cloud_policies account;
     cloud_launch_configurations := cloud_launch_configurations account;
     cloud_alarms := [alarm_up] |}.

(** A provider that accepts the creation of a group and does not show the
    group to the lookup that follows. *)
Definition Lagging : Provider :=
  {| World := Cloud;
     get_all_groups := cloud_get_all_groups;
     get_all_policies := cloud_get_all_policies;
     get_all_launch_configurations := cloud_get_all_launch_configurations;
     create_auto_scaling_group := fun _ c => (inr tt, c);
     create_scaling_policy := cloud_create_scaling_policy;
     describe_alarms := cloud_describe_alarms;
     create_alarm := cloud_create_alarm |}.

Definition lagging_globals : Globals Lagging :=
  {| glob_wait_for_new_inst := None;
     glob_connection := None;
     glob_desired_capacity := None;
     glob_wait_for_elb := None;
     glob_get_properties := Some report |}.

(** [copy_params] with a launch configuration named, and no
    "load_balancers" key. *)
Definition params_with_launch_config : Properties :=
  <["launch_config_name" := PStr "lc-next"]> copy_params.

(** ... and with the wait asked for. *)
Definition params_with_wait : Properties :=
  <["wait_for_instances" := PBool true]>
  (<["wait_timeout" := PInt 300]> params_with_launch_config).

(** ... and for a source that does not exist. *)
Definition params_unknown_source : Properties :=
  <["source_asg_name" := PStr "asg-none"]> params_with_launch_config.

(** ... and for a copy under the source's own name. *)
Definition params_same_name : Properties :=
  <["group_name" := PStr "asg-prod"]> params_with_launch_config.

(** The arguments of the task in the module's EXAMPLES. *)
Definition task_args : Properties :=
  <["region" := PStr "us-east-1"]>
  (<["source_asg_name" := PStr "asg-prod"]>
   (<["name" := PStr "asg-prod-copy"]> ∅)).

(** The group, policies and alarms the copy of the example is expected to
    create. *)
Definition asg_prod_copy : AutoScalingGroup :=
  new_group (PStr "asg-prod-copy") (PStr "lc-next") asg_prod lc_next.

Definition policy_up_copy : ScalingPolicy :=
  set_as_group policy_up (PStr "asg-prod-copy").

Definition policy_down_copy : ScalingPolicy :=
  set_as_group policy_down (PStr "asg-prod-copy").

Definition alarm_up_copy : MetricAlarm :=
  set_dimension alarm_up "AutoScalingGroupName" (PStr "asg-prod-copy").

Definition alarm_down_copy : MetricAlarm :=
  set_dimension alarm_down "AutoScalingGroupName" (PStr "asg-prod-copy").

(** An account with a second launch configuration named "lc-next". *)
Definition lc_next_shadow : LaunchConfiguration :=
  {| lc_name := "lc-next"; image_id := "ami-3"; instance_type := "m3.large" |}.

Definition account_two_configurations : Cloud :=
  {| cloud_groups := cloud_groups account;
     cloud_policies := cloud_policies account;
     cloud_launch_configurations := [lc_prod; lc_next; lc_next_shadow];
     cloud_alarms := cloud_alarms account |}.

(** ** Vocabulary of the statements

    The blocks of [copy_auto_scaling_group] are given names here, so that
    lemmas can speak of the run of one block; [copy_auto_scaling_group_run]
    and [inner_try_run] below show that the script is made of them. *)

(** The handler of line 145-146 applied to the run of the inner [try]. *)
Definition except_fail_json {W A} (r : Run W A) : Run W A :=
  match r with
  | mkRun (inl (BotoServerError msg)) w t => mkRun (inl (FailJson msg)) w t
  | r => r
  end.

Section Blocks.

Context (P : Provider).

(** Lines 128-144: what follows the creation of the group (and the wait,
    when it is asked for). *)
Definition refetch_and_copy (g : Globals P) (source_asg_name group_name : PyVal)
    (source_policies : list ScalingPolicy) : M (World P) (bool * Properties) :=
  (refetched <- as_get_all_groups P [group_name] ;;
   as_group <- getitem0 refetched ;;
   get_properties <- global "get_properties" (glob_get_properties P g) ;;
   asg_properties <- call_external (fun w => (get_properties as_group, w)) ;;
   copy_policies P source_asg_name as_group source_policies ;;
   let changed := true in
   ret (changed, asg_properties))%py.

(** Lines 117-144: the body of the inner [try]. *)
Definition inner_try (g : Globals P) (params : Properties) (ag : AutoScalingGroup)
    (source_policies : list ScalingPolicy) : M (World P) (bool * Properties) :=
  (as_create_auto_scaling_group P ag ;;
   (if is_True (dict_get params "wait_for_instances")
    then wait_for_instances_block P g params (dict_get params "group_name")
           (dict_get params "wait_timeout")
    else ret tt) ;;
   refetch_and_copy g (dict_get params "source_asg_name")
     (dict_get params "group_name") source_policies)%py.

End Blocks.

(** What the loop may send to the provider, for a refetched group named
    [new_name]. *)
Definition loop_event_ok (new_name : PyVal) (source_policies : list ScalingPolicy)
    (e : Event) : Prop :=
  match e.1 with
  | CreateScalingPolicy p =>
      as_group p = Some new_name /\
      exists sp, sp ∈ source_policies /\ p = set_as_group sp new_name
  | CreateAlarm a =>
      dimensions a !! "AutoScalingGroupName" = Some (DimName new_name)
  | DescribeAlarms _ => True
  | _ => False
  end.

(** The groups, policies and alarms a trace shows as created. *)
Definition created_groups (t : list Event) : list AutoScalingGroup :=
  omap (fun e => match e with
                 | (CreateAutoScalingGroup ag, Created) => Some ag
                 | _ => None
                 end) t.

Definition created_policies (t : list Event) : list ScalingPolicy :=
  omap (fun e => match e with
                 | (CreateScalingPolicy p, Created) => Some p
                 | _ => None
                 end) t.

Definition created_alarms (t : list Event) : list MetricAlarm :=
  omap (fun e => match e with
                 | (CreateAlarm a, Created) => Some a
                 | _ => None
                 end) t.

(** The provider answers a lookup of groups by name with groups that have
    one of the names asked for. *)
Definition lookup_by_name_faithful (P : Provider) : Prop :=
  forall names w groups w',
    get_all_groups P names w = (inr groups, w') ->
    forall grp, grp ∈ groups -> name grp ∈ names.

(** A run in which element zero was taken of an empty reply: of the
    launch-configuration lookup, of the lookup of groups that follows the
    creation (the refetch), or of an alarm lookup. *)
Definition element_zero_of_nothing (t : list Event) : Prop :=
  (exists names,
     (GetAllLaunchConfigurations names, LaunchConfigurations []) ∈ t) \/
  (exists ag names,
     (CreateAutoScalingGroup ag, Created) ∈ t /\
     (GetAllGroups names, Groups []) ∈ t) \/
  (exists names, (DescribeAlarms names, Alarms []) ∈ t).

Definition is_policy_creation_or_lookup (c : Call) : bool :=
  match c with
  | CreateScalingPolicy _ | DescribeAlarms _ => true
  | _ => false
  end.

(** In the trace [t], the call after each policy creation that succeeded
    is the lookup of the policy's alarm, and each alarm lookup is such a
    call. *)
Definition lookups_paired (src : PyVal) (t : list Event) : Prop :=
  (forall j p, t !! j = Some (CreateScalingPolicy p, Created) ->
     exists r, t !! S j = Some (DescribeAlarms [alarm_name_for src p], r)) /\
  (forall i names r, t !! i = Some (DescribeAlarms names, r) ->
     exists j p, i = S j /\ t !! j = Some (CreateScalingPolicy p, Created) /\
                 names = [alarm_name_for src p]).

(** In the trace [t], each alarm creation comes right after a lookup that
    returned at least one alarm, and sends element zero of that reply with
    its AutoScalingGroupName dimension set. *)
Definition alarms_paired (t : list Event) : Prop :=
  forall i a rep,
    t !! i = Some (CreateAlarm a, rep) ->
    exists j names first others new_name,
      i = S j /\
      t !! j = Some (DescribeAlarms names, Alarms (first :: others)) /\
      a = set_dimension first "AutoScalingGroupName" new_name.

Definition is_alarm_creation (c : Call) : bool :=
  match c with
  | CreateAlarm _ => true
  | _ => false
  end.

(** The provider answers a lookup of launch configurations by name with
    launch configurations that have one of the names asked for. *)
Definition launch_configurations_by_name_faithful (P : Provider) : Prop :=
  forall names w configurations w',
    get_all_launch_configurations P names w = (inr configurations, w') ->
    forall lc, lc ∈ configurations -> PStr (lc_name lc) ∈ names.

(** *** Further providers, globals and accounts to run the script on *)

Definition limit_exceeded : string := "LimitExceeded: too many alarms".

(** A provider that rejects the creation of alarms. *)
Definition AlarmLimit : Provider :=
  {| World := Cloud;
     get_all_groups := cloud_get_all_groups;
     get_all_policies := cloud_get_all_policies;
     get_all_launch_configurations := cloud_get_all_launch_configurations;
     create_auto_scaling_group := cloud_create_auto_scaling_group;
     create_scaling_policy := cloud_create_scaling_policy;
     describe_alarms := cloud_describe_alarms;
     create_alarm := fun _ c => (inl limit_exceeded, c) |}.

Definition alarm_limit_globals : Globals AlarmLimit :=
  {| glob_wait_for_new_inst := None;
     glob_connection := None;
     glob_desired_capacity := None;
     glob_wait_for_elb := None;
     glob_get_properties := Some report |}.

(** A provider that returns every launch configuration, whatever the names
    asked for. *)
Definition Unfiltered : Provider :=
  {| World := Cloud;
     get_all_groups := cloud_get_all_groups;
     get_all_policies := cloud_get_all_policies;
     get_all_launch_configurations :=
       fun _ c => (inr (cloud_launch_configurations c), c);
     create_auto_scaling_group := cloud_create_auto_scaling_group;
     create_scaling_policy := cloud_create_scaling_policy;
     describe_alarms := cloud_describe_alarms;
     create_alarm := cloud_create_alarm |}.

(** An account without alarms. *)
Definition account_without_alarms : Cloud :=
  {| cloud_groups := cloud_groups account;
     cloud_policies := cloud_policies account;
     cloud_launch_configurations := cloud_launch_configurations account;
     cloud_alarms := [] |}.

(** Globals in which the names of the wait are bound, to helpers that
    return at once. *)
Definition globals_with_wait : Globals InMemory :=
  {| glob_wait_for_new_inst := Some (fun _ _ _ _ _ _ c => (inr tt, c));
     glob_connection := Some (PStr "connection");
     glob_desired_capacity := Some (PInt 4);
     glob_wait_for_elb := Some (fun _ _ c => (inr tt, c));
     glob_get_properties := Some report |}.

(** What [report] computes for the copy of the example. *)
Definition asg_prod_copy_properties : Properties :=
  <["name" := PStr "asg-prod-copy"]>
  (<["min_size" := PInt 2]>
   (<["max_size" := PInt 10]>
    (<["desired_capacity" := PInt 4]> ∅))).

(** The parameters [AnsibleModule] makes of [task_args]: the arguments,
    and None under every other declared key. *)
Definition task_params : Properties :=
  task_args ∪ ((fun _ => PNone) <$> argument_spec ansible_ec2_argument_spec).

(** * Properties *)

(** ** Running the monad *)

Section MonadFacts.

Context {W : Type}.

Lemma outcome_prepend {A} t (r : Run W A) : outcome (prepend t r) = outcome r.
Proof. by destruct r. Qed.

Lemma trace_prepend {A} t (r : Run W A) : trace (prepend t r) = t ++ trace r.
Proof. by destruct r. Qed.

Lemma prepend_nil {A} (r : Run W A) : prepend [] r = r.
Proof. by destruct r. Qed.

Lemma prepend_prepend {A} t1 t2 (r : Run W A) :
  prepend t1 (prepend t2 r) = prepend (t1 ++ t2) r.
Proof. destruct r. cbn. by rewrite app_assoc. Qed.

Lemma bind_ret {A B} (a : A) (k : A -> M W B) w : bind (ret a) k w = k a w.
Proof. unfold bind, ret. apply prepend_nil. Qed.

Lemma bind_raise {A B} e (k : A -> M W B) w :
  bind (raise e) k w = mkRun (inl e) w [].
Proof. done. Qed.

Lemma bind_bind {A B C} (m : M W A) (k : A -> M W B) (k' : B -> M W C) w :
  bind (bind m k) k' w = bind m (fun a => bind (k a) k') w.
Proof.
  unfold bind. destruct (m w) as [[e|a] w1 t1]; [done|].
  destruct (k a w1) as [[e|b] w2 t2]; cbn; [done|].
  by rewrite prepend_prepend.
Qed.

Lemma bind_api {A B} c reply (method : W -> (string + A) * W)
    (k : A -> M W B) w :
  bind (api c reply method) k w =
  match method w with
  | (inr a, w') => prepend [(c, reply a)] (k a w')
  | (inl msg, w') => mkRun (inl (BotoServerError msg)) w' [(c, Rejected msg)]
  end.
Proof. unfold bind, api. by destruct (method w) as [[msg|a] w']. Qed.

Lemma bind_call_external {A B} (f : W -> (Exn + A) * W) (k : A -> M W B) w :
  bind (call_external f) k w =
  match f w with
  | (inr a, w') => k a w'
  | (inl e, w') => mkRun (inl e) w' []
  end.
Proof.
  unfold bind, call_external. destruct (f w) as [[e|a] w']; [done|].
  apply prepend_nil.
Qed.

End MonadFacts.

Arguments dict_get : simpl never.
Arguments py_str : simpl never.
Arguments alarm_name_for : simpl never.

(** Unfolding the wrappers of the two connections. *)
Ltac unfold_calls :=
  unfold as_get_all_groups, as_get_all_policies,
    as_get_all_launch_configurations, as_create_auto_scaling_group,
    as_create_scaling_policy, cw_describe_alarms, cw_create_alarm in *.

(** One step of a run: the next API call and the provider's answer to it,
    or the next pure statement. *)
Ltac run_step :=
  first
    [ rewrite bind_bind
    | rewrite bind_ret
    | rewrite bind_raise
    | rewrite bind_api;
      match goal with
      | |- context [match ?m ?w with pair _ _ => _ end] =>
          let msg := fresh "msg" in
          let x := fresh "reply" in
          let w' := fresh "w" in
          let E := fresh "E" in
          destruct (m w) as [[msg | x] w'] eqn:E
      end
    | rewrite bind_call_external;
      match goal with
      | |- context [match ?f ?w with pair _ _ => _ end] =>
          let x := fresh "res" in
          let w' := fresh "w" in
          destruct (f w) as [[? | x] w']
      end ].

(** Splitting membership in an explicit list of events. *)
Ltac split_elem H :=
  repeat
    (first [ apply elem_of_cons in H as [H | H]
           | apply elem_of_app in H as [H | H]
           | apply elem_of_nil in H; destruct H ]).

Section PolicyLoop.

Context (P : Provider).
Implicit Types (w : World P) (e : Event).

Lemma loop_event_ok_further new_name sp pols e :
  loop_event_ok new_name pols e -> loop_event_ok new_name (sp :: pols) e.
Proof.
  unfold loop_event_ok. destruct (e.1); try done.
  intros [? (sp' & ? & ?)]. split; [done|].
  exists sp'. split; [by apply list_elem_of_further | done].
Qed.

Lemma loop_event_ok_policy new_name sp pols r :
  loop_event_ok new_name (sp :: pols)
    (CreateScalingPolicy (set_as_group sp new_name), r).
Proof. split; [done|]. exists sp. split; [apply list_elem_of_here | done]. Qed.

Lemma loop_event_ok_alarm new_name pols alarm r :
  loop_event_ok new_name pols
    (CreateAlarm (set_dimension alarm "AutoScalingGroupName" new_name), r).
Proof. apply lookup_insert_eq. Qed.

(** One iteration of the loop, call by call. *)
Lemma copy_policies_cons src asg sp pols w :
  copy_policies P src asg (sp :: pols) w =
  let policy := set_as_group sp (name asg) in
  match create_scaling_policy P policy w with
  | (inl msg, w1) =>
      mkRun (inl (BotoServerError msg)) w1
        [(CreateScalingPolicy policy, Rejected msg)]
  | (inr _, w1) =>
      let lookup := DescribeAlarms [alarm_name_for src policy] in
      match describe_alarms P [alarm_name_for src policy] w1 with
      | (inl msg, w2) =>
          mkRun (inl (BotoServerError msg)) w2
            [(CreateScalingPolicy policy, Created); (lookup, Rejected msg)]
      | (inr [], w2) =>
          mkRun (inl IndexError) w2
            [(CreateScalingPolicy policy, Created); (lookup, Alarms [])]
      | (inr (alarm :: alarms), w2) =>
          let alarm' :=
            set_dimension alarm "AutoScalingGroupName" (name asg) in
          match create_alarm P alarm' w2 with
          | (inl msg, w3) =>
              mkRun (inl (BotoServerError msg)) w3
                [(CreateScalingPolicy policy, Created);
                 (lookup, Alarms (alarm :: alarms));
                 (CreateAlarm alarm', Rejected msg)]
          | (inr _, w3) =>
              prepend
                [(CreateScalingPolicy policy, Created);
                 (lookup, Alarms (alarm :: alarms));
                 (CreateAlarm alarm', Created)]
                (copy_policies P src asg pols w3)
          end
      end
  end.
Proof.
  cbn [copy_policies]. unfold_calls. cbv zeta.
  run_step; [done|]. destruct reply.
  run_step; [done|].
  destruct reply as [|alarm alarms]; cbn [getitem0].
  { by rewrite bind_raise. }
  rewrite bind_ret. run_step; [done|]. destruct reply.
  by rewrite !prepend_prepend.
Qed.

End PolicyLoop.

(** ** The script, call by call *)

Section ScriptRuns.

Context (P : Provider).
Implicit Types (w : World P) (e : Event) (g : Globals P).

Lemma try_except_fail_json {A} (body : M (World P) A) w :
  try_except_BotoServerError body (fun msg => fail_json msg) w =
  except_fail_json (body w).
Proof.
  unfold try_except_BotoServerError, except_fail_json.
  destruct (body w) as [[[]|] ? ?]; cbn; try done.
  by rewrite app_nil_r.
Qed.

Lemma trace_except_fail_json {A} (r : Run (World P) A) :
  trace (except_fail_json r) = trace r.
Proof. by destruct r as [[[]|] ? ?]. Qed.

Lemma outcome_except_fail_json {A} (r : Run (World P) A) :
  outcome (except_fail_json r) =
  match outcome r with
  | inl (BotoServerError msg) => inl (FailJson msg)
  | o => o
  end.
Proof. by destruct r as [[[]|] ? ?]. Qed.

Lemma copy_auto_scaling_group_run g params w :
  copy_auto_scaling_group P g params w =
  let source_asg_name := dict_get params "source_asg_name" in
  let launch_config_name := dict_get params "launch_config_name" in
  let e1 r := (GetAllGroups [source_asg_name], r) in
  let e2 r := (GetAllPolicies source_asg_name, r) in
  let e3 r := (GetAllLaunchConfigurations [launch_config_name], r) in
  match get_all_groups P [source_asg_name] w with
  | (inl msg, w1) => mkRun (inl (BotoServerError msg)) w1 [e1 (Rejected msg)]
  | (inr [source_group], w1) =>
      match get_all_policies P source_asg_name w1 with
      | (inl msg, w2) =>
          mkRun (inl (BotoServerError msg)) w2
            [e1 (Groups [source_group]); e2 (Rejected msg)]
      | (inr source_policies, w2) =>
          match get_all_launch_configurations P [launch_config_name] w2 with
          | (inl msg, w3) =>
              mkRun (inl (BotoServerError msg)) w3
                [e1 (Groups [source_group]); e2 (Policies source_policies);
                 e3 (Rejected msg)]
          | (inr [], w3) =>
              mkRun (inl IndexError) w3
                [e1 (Groups [source_group]); e2 (Policies source_policies);
                 e3 (LaunchConfigurations [])]
          | (inr (launch_config :: others), w3) =>
              prepend
                [e1 (Groups [source_group]); e2 (Policies source_policies);
                 e3 (LaunchConfigurations (launch_config :: others))]
                (except_fail_json
                   (inner_try P g params
                      (new_group (dict_get params "group_name")
                         launch_config_name source_group launch_config)
                      source_policies w3))
          end
      end
  | (inr groups, w1) =>
      mkRun
        (inl (FailJson ("Unable to find source group " +:+ py_str source_asg_name)))
        w1 [e1 (Groups groups)]
  end.
Proof.
  unfold copy_auto_scaling_group. unfold_calls. cbv zeta.
  run_step; [done|].
  destruct reply as [|source_group [|]]; cbn [length Nat.eqb getitem0];
    [done| |done].
  rewrite bind_ret. run_step; [done|]. run_step; [done|].
  destruct reply0 as [|launch_config others]; cbn [getitem0].
  { by rewrite bind_raise. }
  rewrite bind_ret, try_except_fail_json, !prepend_prepend. done.
Qed.

Lemma inner_try_run g params ag source_policies w :
  inner_try P g params ag source_policies w =
  let rest :=
    refetch_and_copy P g (dict_get params "source_asg_name")
      (dict_get params "group_name") source_policies in
  match create_auto_scaling_group P ag w with
  | (inl msg, w1) =>
      mkRun (inl (BotoServerError msg)) w1
        [(CreateAutoScalingGroup ag, Rejected msg)]
  | (inr _, w1) =>
      prepend [(CreateAutoScalingGroup ag, Created)]
        (if is_True (dict_get params "wait_for_instances")
         then bind (wait_for_instances_block P g params
                      (dict_get params "group_name")
                      (dict_get params "wait_timeout")) (fun _ => rest) w1
         else rest w1)
  end.
Proof.
  unfold inner_try. unfold_calls. cbv zeta.
  run_step; [done|]. destruct reply.
  destruct (is_True _); [done|]. by rewrite bind_ret.
Qed.

Lemma refetch_and_copy_run g src group_name source_policies w :
  refetch_and_copy P g src group_name source_policies w =
  let refetch r := (GetAllGroups [group_name], r) in
  match get_all_groups P [group_name] w with
  | (inl msg, w1) => mkRun (inl (BotoServerError msg)) w1 [refetch (Rejected msg)]
  | (inr [], w1) => mkRun (inl IndexError) w1 [refetch (Groups [])]
  | (inr (as_group :: others), w1) =>
      match glob_get_properties P g with
      | None =>
          mkRun (inl (NameError "get_properties")) w1
            [refetch (Groups (as_group :: others))]
      | Some get_properties =>
          match get_properties as_group with
          | inl exn => mkRun (inl exn) w1 [refetch (Groups (as_group :: others))]
          | inr asg_properties =>
              prepend [refetch (Groups (as_group :: others))]
                (bind (copy_policies P src as_group source_policies)
                   (fun _ => ret (true, asg_properties)) w1)
          end
      end
  end.
Proof.
  unfold refetch_and_copy. unfold_calls. cbv zeta.
  run_step; [done|].
  destruct reply as [|as_group others]; cbn [getitem0].
  { by rewrite bind_raise. }
  rewrite bind_ret.
  destruct (glob_get_properties P g) as [get_properties|]; cbn [global].
  2: { by rewrite bind_raise. }
  rewrite bind_ret, bind_call_external.
  by destruct (get_properties as_group).
Qed.

End ScriptRuns.

(** ** The policy loop *)

Section PolicyLoopFacts.

Context (P : Provider).
Implicit Types (w : World P) (e : Event).

Lemma copy_policies_events src asg pols w e :
  e ∈ trace (copy_policies P src asg pols w) ->
  loop_event_ok (name asg) pols e.
Proof.
  revert w. induction pols as [|sp pols IH]; intros w.
  { intros H. by apply elem_of_nil in H. }
  rewrite copy_policies_cons. cbv zeta.
  repeat case_match; rewrite ?trace_prepend; cbn [trace]; intros Hin;
    split_elem Hin; subst;
    eauto using loop_event_ok_policy, loop_event_ok_alarm,
      loop_event_ok_further.
  all: done.
Qed.

(** The call after a policy's creation is the lookup of its alarm, and
    every alarm lookup is such a call. *)
Lemma copy_policies_lookups src asg pols w :
  let t := trace (copy_policies P src asg pols w) in
  (forall j p, t !! j = Some (CreateScalingPolicy p, Created) ->
     exists r, t !! S j = Some (DescribeAlarms [alarm_name_for src p], r)) /\
  (forall i names r, t !! i = Some (DescribeAlarms names, r) ->
     exists j p, i = S j /\ t !! j = Some (CreateScalingPolicy p, Created) /\
                 names = [alarm_name_for src p]).
Proof.
  revert w. induction pols as [|sp pols IH]; intros w.
  { split; intros; done. }
  cbv zeta. rewrite copy_policies_cons. cbv zeta.
  repeat case_match; rewrite ?trace_prepend; cbn [trace].
  5: {
    destruct (IH w2) as [IH1 IH2]. split.
    - intros [|[|[|j]]] p Hj; cbn in Hj |- *; simplify_eq; eauto.
    - intros [|[|[|i]]] names r Hi; cbn in Hi; simplify_eq.
      + eexists 0%nat, _. eauto.
      + apply IH2 in Hi as (j & p & -> & Hj & ->).
        exists (S (S (S j))), p. eauto. }
  all: split;
    [ intros [|[|[|j]]] p Hj; cbn in Hj |- *; simplify_eq; eauto
    | intros [|[|[|i]]] names r Hi; cbn in Hi; simplify_eq;
      eexists 0%nat, _; eauto ].
Qed.

(** An alarm lookup that finds nothing ends the loop with IndexError. *)
Lemma copy_policies_no_alarm src asg pols w names :
  (DescribeAlarms names, Alarms []) ∈ trace (copy_policies P src asg pols w) ->
  outcome (copy_policies P src asg pols w) = inl IndexError.
Proof.
  revert w. induction pols as [|sp pols IH]; intros w.
  { intros H. by apply elem_of_nil in H. }
  rewrite copy_policies_cons. cbv zeta.
  repeat case_match; rewrite ?trace_prepend, ?outcome_prepend;
    cbn [trace outcome]; intros Hin; split_elem Hin; simplify_eq; eauto.
Qed.

End PolicyLoopFacts.

(** ** Pieces of a run *)

Section Pieces.

Context (P : Provider).
Implicit Types (w : World P) (e : Event) (g : Globals P).

Lemma bind_const_ret {A B} (m : M (World P) A) (b : B) w :
  trace (bind m (fun _ => ret b) w) = trace (m w) /\
  outcome (bind m (fun _ => ret b) w) =
    match outcome (m w) with inl exn => inl exn | inr _ => inr b end.
Proof.
  unfold bind, ret. destruct (m w) as [[exn|a] w1 t1]; cbn; [done|].
  by rewrite app_nil_r.
Qed.

(** The wait of lines 118-126 calls no API method itself; with any of its
    first three names unbound it raises NameError. *)
Lemma wait_for_instances_block_cases g params group_name wait_timeout w :
  exists o w', wait_for_instances_block P g params group_name wait_timeout w =
               mkRun o w' [] /\
    (glob_wait_for_new_inst P g = None \/ glob_connection P g = None \/
     glob_desired_capacity P g = None ->
     exists id, o = inl (NameError id) /\ w' = w).
Proof.
  unfold wait_for_instances_block.
  destruct (glob_wait_for_new_inst P g) as [f|]; cbn [global];
    [rewrite bind_ret|rewrite bind_raise; naive_solver].
  destruct (glob_connection P g) as [c|]; cbn [global];
    [rewrite bind_ret|rewrite bind_raise; naive_solver].
  destruct (glob_desired_capacity P g) as [d|]; cbn [global];
    [rewrite bind_ret|rewrite bind_raise; naive_solver].
  rewrite bind_call_external.
  destruct (f _ _ _ _ _ _ w) as [[exn|[]] w1]; [naive_solver|].
  destruct (glob_wait_for_elb P g) as [h|]; cbn [global];
    [rewrite bind_ret|rewrite bind_raise; naive_solver].
  unfold call_external. destruct (h _ _ w1) as [res w2]. naive_solver.
Qed.

(** After the group is created: the wait raises, or the refetch runs. *)
Lemma after_create_cases g params (rest : M (World P) (bool * Properties)) w :
  let r :=
    if is_True (dict_get params "wait_for_instances")
    then bind (wait_for_instances_block P g params
                 (dict_get params "group_name")
                 (dict_get params "wait_timeout")) (fun _ => rest) w
    else rest w in
  (exists exn w', is_True (dict_get params "wait_for_instances") = true /\
                  r = mkRun (inl exn) w' []) \/
  (exists w', r = rest w').
Proof.
  cbv zeta. destruct (is_True _); [|eauto].
  destruct (wait_for_instances_block_cases g params
              (dict_get params "group_name") (dict_get params "wait_timeout") w)
    as (o & w' & Hrun & _).
  unfold bind. rewrite Hrun. destruct o as [exn|[]].
  - left. eauto.
  - right. exists w'. apply prepend_nil.
Qed.

End Pieces.
(** ** The claims *)

Section Claims.

Context (P : Provider).
Implicit Types (w : World P) (e : Event) (g : Globals P).

(** What [refetch_and_copy] sends: the refetch, then the loop's calls for
    the group the refetch put at element zero. *)
Lemma refetch_and_copy_events g src group_name pols w e :
  e ∈ trace (refetch_and_copy P g src group_name pols w) ->
  (exists r, e = (GetAllGroups [group_name], r)) \/
  (exists as_group others w1,
     get_all_groups P [group_name] w = (inr (as_group :: others), w1) /\
     e ∈ trace (copy_policies P src as_group pols w1)).
Proof.
  rewrite refetch_and_copy_run. cbv zeta.
  repeat case_match; rewrite ?trace_prepend; cbn [trace]; intros Hin;
    split_elem Hin; eauto.
  right. rewrite (proj1 (bind_const_ret P _ _ _)) in Hin. eauto 6.
Qed.

(** What the inner [try] sends: the creation, then what
    [refetch_and_copy] sends from some later state. *)
Lemma inner_try_events g params ag pols w e :
  e ∈ trace (inner_try P g params ag pols w) ->
  (exists r, e = (CreateAutoScalingGroup ag, r)) \/
  (exists w',
     e ∈ trace (refetch_and_copy P g (dict_get params "source_asg_name")
                  (dict_get params "group_name") pols w')).
Proof.
  rewrite inner_try_run. cbv zeta.
  destruct (create_auto_scaling_group P ag w) as [[msg|[]] w1].
  { cbn [trace]. intros Hin. split_elem Hin. eauto. }
  rewrite trace_prepend. intros Hin. split_elem Hin; [eauto|].
  destruct (after_create_cases P g params
    (refetch_and_copy P g (dict_get params "source_asg_name")
       (dict_get params "group_name") pols) w1) as [(exn & w' & _ & Hr)|[w' Hr]];
    cbv zeta in Hr; rewrite Hr in Hin.
  - by apply elem_of_nil in Hin.
  - eauto.
Qed.

(** C5: when the lookup of the source group returns no group, or two or
    more, [copy_auto_scaling_group] fails through [fail_json] with the
    message "Unable to find source group <name>", and the lookup is the
    only call it has made: no group, policy or alarm is created. *)
Theorem source_lookup_not_unique_fails g params w groups w1 :
  get_all_groups P [dict_get params "source_asg_name"] w = (inr groups, w1) ->
  length groups ≠ 1%nat ->
  let r := copy_auto_scaling_group P g params w in
  outcome r =
    inl (FailJson ("Unable to find source group " +:+
                   py_str (dict_get params "source_asg_name"))) /\
  trace r = [(GetAllGroups [dict_get params "source_asg_name"], Groups groups)] /\
  forall e, e ∈ trace r -> is_creation e.1 = false.
Proof.
  intros Hgroups Hlen. cbv zeta.
  rewrite copy_auto_scaling_group_run. cbv zeta. rewrite Hgroups.
  destruct groups as [|source_group [|second others]]; [|done|];
    cbn [outcome trace]; (split; [done|]); (split; [done|]);
    intros e Hin; split_elem Hin; by subst.
Qed.

(** A rejected creation is the only call of the inner [try]. *)
Lemma inner_try_rejected g params ag0 pols w ag msg :
  (CreateAutoScalingGroup ag, Rejected msg)
    ∈ trace (inner_try P g params ag0 pols w) ->
  exists w1,
    inner_try P g params ag0 pols w =
    mkRun (inl (BotoServerError msg)) w1
      [(CreateAutoScalingGroup ag0, Rejected msg)].
Proof.
  rewrite inner_try_run. cbv zeta.
  destruct (create_auto_scaling_group P ag0 w) as [[msg'|[]] w1].
  - cbn [trace]. intros Hin. split_elem Hin. simplify_eq. eauto.
  - rewrite trace_prepend. intros Hin. split_elem Hin; [done|].
    exfalso.
    destruct (after_create_cases P g params
      (refetch_and_copy P g (dict_get params "source_asg_name")
         (dict_get params "group_name") pols) w1)
      as [(exn & w' & _ & Hr)|[w' Hr]];
      cbv zeta in Hr; rewrite Hr in Hin.
    + by apply elem_of_nil in Hin.
    + apply refetch_and_copy_events in Hin
        as [[r ?]|(as_group & others & w4 & _ & Hin)]; [done|].
      by apply copy_policies_events in Hin.
Qed.

(** C6: when the provider rejects the creation of the group,
    [copy_auto_scaling_group] fails through [fail_json] with the
    provider's message, and no policy and no alarm is created. *)
Theorem rejected_group_creation_fails g params w ag msg :
  let r := copy_auto_scaling_group P g params w in
  (CreateAutoScalingGroup ag, Rejected msg) ∈ trace r ->
  outcome r = inl (FailJson msg) /\
  forall e, e ∈ trace r -> is_policy_or_alarm_creation e.1 = false.
Proof.
  cbv zeta. rewrite copy_auto_scaling_group_run. cbv zeta.
  repeat case_match; rewrite ?trace_prepend, ?outcome_prepend,
    ?trace_except_fail_json, ?outcome_except_fail_json;
    cbn [trace outcome]; intros Hin; split_elem Hin; try done.
  apply inner_try_rejected in Hin as [w' ->]. cbn [trace outcome].
  split; [done|]. intros e He. split_elem He; by subst.
Qed.

(** The calls of [refetch_and_copy] are the refetch and the loop's. *)
Lemma refetch_and_copy_loop_events g src group_name pols w e :
  e ∈ trace (refetch_and_copy P g src group_name pols w) ->
  (exists r, e = (GetAllGroups [group_name], r)) \/
  (exists as_group others w1,
     get_all_groups P [group_name] w = (inr (as_group :: others), w1) /\
     loop_event_ok (name as_group) pols e).
Proof.
  intros Hin. apply refetch_and_copy_events in Hin
    as [?|(as_group & others & w1 & ? & Hin)]; [by left|].
  apply copy_policies_events in Hin. right. eauto.
Qed.

(** The group sent for creation is the one lines 99-114 build from the
    single group the source lookup returned and from element zero of the
    launch-configuration lookup. *)
Lemma created_group_is_new_group g params w ag r :
  (CreateAutoScalingGroup ag, r) ∈ trace (copy_auto_scaling_group P g params w) ->
  exists source_group w1 launch_config others,
    get_all_groups P [dict_get params "source_asg_name"] w
      = (inr [source_group], w1) /\
    (GetAllLaunchConfigurations [dict_get params "launch_config_name"],
     LaunchConfigurations (launch_config :: others))
      ∈ trace (copy_auto_scaling_group P g params w) /\
    ag = new_group (dict_get params "group_name")
           (dict_get params "launch_config_name") source_group launch_config.
Proof.
  rewrite copy_auto_scaling_group_run. cbv zeta.
  repeat case_match; rewrite ?trace_prepend, ?trace_except_fail_json;
    cbn [trace]; intros Hin; split_elem Hin; try done.
  simplify_eq. do 4 eexists. split; [done|].
  split; [do 2 apply list_elem_of_further; apply list_elem_of_here|].
  apply inner_try_events in Hin as [[r' ?]|[w' Hin]]; [by simplify_eq|].
  apply refetch_and_copy_loop_events in Hin
    as [[r' ?]|(as_group & ? & ? & _ & Hin)]; done.
Qed.


(** C9: when the value under the key "launch_config_name" is truthy, the
    load-balancer list of the group sent for creation is the one-element
    list holding that value, whatever is stored under "load_balancers":
    line 83 reads the override from "launch_config_name". *)
Theorem load_balancers_read_from_launch_config_name
    g params (separate_load_balancers : PyVal) w ag r :
  truthy (dict_get params "launch_config_name") = true ->
  (CreateAutoScalingGroup ag, r)
    ∈ trace (copy_auto_scaling_group P g
               (<["load_balancers" := separate_load_balancers]> params) w) ->
  load_balancers ag = [dict_get params "launch_config_name"].
Proof.
  intros Htruthy Hin.
  apply created_group_is_new_group in Hin
    as (source_group & w1 & launch_config & others & _ & _ & ->).
  assert (dict_get (<["load_balancers" := separate_load_balancers]> params)
            "launch_config_name" = dict_get params "launch_config_name") as ->.
  { unfold dict_get. by rewrite lookup_insert_ne. }
  cbn. by rewrite Htruthy.
Qed.



(** With the wait asked for and one of its names unbound, the inner [try]
    ends with NameError right after the creation. *)
Lemma inner_try_wait_unbound g params ag0 pols w ag :
  is_True (dict_get params "wait_for_instances") = true ->
  glob_wait_for_new_inst P g = None \/ glob_connection P g = None \/
    glob_desired_capacity P g = None ->
  (CreateAutoScalingGroup ag, Created)
    ∈ trace (inner_try P g params ag0 pols w) ->
  exists id w1,
    inner_try P g params ag0 pols w =
    mkRun (inl (NameError id)) w1 [(CreateAutoScalingGroup ag0, Created)].
Proof.
  intros Hwait Hunbound. rewrite inner_try_run. cbv zeta.
  destruct (create_auto_scaling_group P ag0 w) as [[msg'|[]] w1].
  { cbn [trace]. intros Hin. split_elem Hin. done. }
  intros _. rewrite Hwait.
  destruct (wait_for_instances_block_cases P g params
              (dict_get params "group_name") (dict_get params "wait_timeout") w1)
    as (o & w' & Hrun & Hname).
  destruct (Hname Hunbound) as (id & -> & ->).
  unfold bind. rewrite Hrun. cbn. eauto.
Qed.

(** C7: with [wait_for_instances] True, and [wait_for_new_inst],
    [connection] or [desired_capacity] unbound (the file binds none of
    them), the script does not wait: as soon as the group is created it
    ends with NameError, the creation being its last call. *)
Theorem wait_for_instances_raises_NameError g params w ag :
  is_True (dict_get params "wait_for_instances") = true ->
  glob_wait_for_new_inst P g = None \/ glob_connection P g = None \/
    glob_desired_capacity P g = None ->
  let r := copy_auto_scaling_group P g params w in
  (CreateAutoScalingGroup ag, Created) ∈ trace r ->
  exists id before,
    outcome r = inl (NameError id) /\
    trace r = before ++ [(CreateAutoScalingGroup ag, Created)].
Proof.
  intros Hwait Hunbound. cbv zeta.
  rewrite copy_auto_scaling_group_run. cbv zeta.
  repeat case_match; rewrite ?trace_prepend, ?outcome_prepend,
    ?trace_except_fail_json, ?outcome_except_fail_json;
    cbn [trace outcome]; intros Hin; split_elem Hin; try done.
  pose proof Hin as Hin'.
  apply inner_try_wait_unbound in Hin' as (id & w' & Hrun); [|done..].
  rewrite Hrun in Hin |- *. cbn [trace outcome] in *.
  split_elem Hin. simplify_eq.
  exists id. eexists [_; _; _]. done.
Qed.

(** An empty refetch or an empty alarm lookup ends [refetch_and_copy]
    with IndexError. *)
Lemma refetch_and_copy_empty g src group_name pols w :
  let r := refetch_and_copy P g src group_name pols w in
  (exists names, (GetAllGroups names, Groups []) ∈ trace r) \/
  (exists names, (DescribeAlarms names, Alarms []) ∈ trace r) ->
  outcome r = inl IndexError.
Proof.
  cbv zeta. rewrite refetch_and_copy_run. cbv zeta.
  repeat case_match; rewrite ?trace_prepend, ?outcome_prepend;
    cbn [trace outcome]; intros [[names Hin]|[names Hin]];
    split_elem Hin; try done.
  - rewrite (proj1 (bind_const_ret P _ _ _)) in Hin.
    by apply copy_policies_events in Hin.
  - rewrite (proj1 (bind_const_ret P _ _ _)) in Hin.
    rewrite (proj2 (bind_const_ret P _ _ _)).
    by rewrite (copy_policies_no_alarm _ _ _ _ _ _ Hin).
Qed.

Lemma inner_try_empty g params ag pols w :
  let r := inner_try P g params ag pols w in
  (exists names, (GetAllGroups names, Groups []) ∈ trace r) \/
  (exists names, (DescribeAlarms names, Alarms []) ∈ trace r) ->
  outcome r = inl IndexError.
Proof.
  cbv zeta. rewrite inner_try_run. cbv zeta.
  destruct (create_auto_scaling_group P ag w) as [[msg|[]] w1].
  { cbn [trace]. intros [[names Hin]|[names Hin]]; split_elem Hin; done. }
  rewrite trace_prepend, outcome_prepend.
  destruct (after_create_cases P g params
    (refetch_and_copy P g (dict_get params "source_asg_name")
       (dict_get params "group_name") pols) w1)
    as [(exn & w' & _ & Hr)|[w' Hr]]; cbv zeta in Hr; rewrite Hr.
  - cbn [trace]. intros [[names Hin]|[names Hin]]; split_elem Hin; done.
  - intros Hempty. apply refetch_and_copy_empty.
    destruct Hempty as [[names Hin]|[names Hin]]; [left|right];
      exists names; split_elem Hin; done.
Qed.

(** The inner [try] looks up no launch configuration. *)
Lemma inner_try_no_launch_configuration_lookup g params ag pols w names r :
  (GetAllLaunchConfigurations names, r) ∉ trace (inner_try P g params ag pols w).
Proof.
  intros Hin. apply inner_try_events in Hin as [[r' ?]|[w' Hin]]; [done|].
  apply refetch_and_copy_loop_events in Hin
    as [[r' ?]|(as_group & ? & ? & _ & Hin)]; done.
Qed.

(** C8: the launch-configuration lookup, the refetch of the new group and
    the alarm lookup are indexed at zero without a check.  When one of them
    returns the empty list the script ends with IndexError, which is none
    of its [fail_json] errors; when the launch-configuration lookup returns
    several, the first is used and the others are ignored. *)
Theorem unguarded_element_zero g params w :
  let r := copy_auto_scaling_group P g params w in
  (element_zero_of_nothing (trace r) ->
   outcome r = inl IndexError /\ forall msg, outcome r ≠ inl (FailJson msg)) /\
  (forall names first others ag rep,
     (GetAllLaunchConfigurations names,
      LaunchConfigurations (first :: others)) ∈ trace r ->
     (CreateAutoScalingGroup ag, rep) ∈ trace r ->
     launch_config ag = first).
Proof.
  cbv zeta. rewrite copy_auto_scaling_group_run. cbv zeta.
  repeat case_match; rewrite ?trace_prepend, ?outcome_prepend,
    ?trace_except_fail_json, ?outcome_except_fail_json;
    cbn [trace outcome].
  all: split;
    [ intros [[names Hin]|[(ag & names & Hcreated & Hin)|[names Hin]]]
    | intros names first rest ag rep Hin Hcreated ].
  all: try (split_elem Hin; try done; split_elem Hcreated; done).
  all: split_elem Hin; try done.
  - by apply inner_try_no_launch_configuration_lookup in Hin.
  - rewrite inner_try_empty; [done|]. left. eauto.
  - rewrite inner_try_empty; [done|]. right. eauto.
  - simplify_eq. split_elem Hcreated; try done.
    apply inner_try_events in Hcreated as [[r' ?]|[w' Hcreated]];
      [by simplify_eq|].
    apply refetch_and_copy_loop_events in Hcreated
      as [[r' ?]|(as_group & ? & ? & _ & Hcreated)]; done.
  - by apply inner_try_no_launch_configuration_lookup in Hin.
Qed.

(** Calls other than those of the loop's first two steps may be put in
    front of a trace that pairs creations and lookups. *)
Lemma lookups_paired_app src (before t : list Event) :
  (forall e, e ∈ before -> is_policy_creation_or_lookup e.1 = false) ->
  lookups_paired src t -> lookups_paired src (before ++ t).
Proof.
  intros Hbefore [Hnext Hprev]. split.
  - intros j p Hj. destruct (decide (j < length before)%nat) as [Hlt|Hge].
    + rewrite lookup_app_l in Hj by done.
      apply list_elem_of_lookup_2, Hbefore in Hj. done.
    + rewrite lookup_app_r in Hj by lia.
      apply Hnext in Hj as [r Hj]. exists r.
      rewrite lookup_app_r by lia.
      by replace (S j - length before)%nat with (S (j - length before)) by lia.
  - intros i names r Hi. destruct (decide (i < length before)%nat) as [Hlt|Hge].
    + rewrite lookup_app_l in Hi by done.
      apply list_elem_of_lookup_2, Hbefore in Hi. done.
    + rewrite lookup_app_r in Hi by lia.
      apply Hprev in Hi as (j & p & Hij & Hj & ->).
      exists (length before + j)%nat, p. split; [lia|]. split; [|done].
      rewrite lookup_app_r by lia.
      by replace (length before + j - length before)%nat with j by lia.
Qed.

Lemma lookups_paired_none src (t : list Event) :
  (forall e, e ∈ t -> is_policy_creation_or_lookup e.1 = false) ->
  lookups_paired src t.
Proof.
  intros Hnone. split.
  - intros j p Hj. by apply list_elem_of_lookup_2, Hnone in Hj.
  - intros i names r Hi. by apply list_elem_of_lookup_2, Hnone in Hi.
Qed.

Lemma refetch_and_copy_lookups g src group_name pols w :
  lookups_paired src (trace (refetch_and_copy P g src group_name pols w)).
Proof.
  rewrite refetch_and_copy_run. cbv zeta.
  repeat case_match; rewrite ?trace_prepend; cbn [trace].
  all: try (apply lookups_paired_none; intros ev Hin; split_elem Hin; by subst).
  apply (lookups_paired_app _ [_]).
  - intros ev Hin. split_elem Hin. by subst.
  - rewrite (proj1 (bind_const_ret P _ _ _)).
    apply copy_policies_lookups.
Qed.

Lemma inner_try_lookups g params ag pols w :
  lookups_paired (dict_get params "source_asg_name")
    (trace (inner_try P g params ag pols w)).
Proof.
  rewrite inner_try_run. cbv zeta.
  destruct (create_auto_scaling_group P ag w) as [[msg|[]] w1].
  { apply lookups_paired_none. intros ev Hin. split_elem Hin. by subst. }
  rewrite trace_prepend. apply (lookups_paired_app _ [_]).
  { intros ev Hin. split_elem Hin. by subst. }
  destruct (after_create_cases P g params
    (refetch_and_copy P g (dict_get params "source_asg_name")
       (dict_get params "group_name") pols) w1)
    as [(exn & w' & _ & Hr)|[w' Hr]]; cbv zeta in Hr; rewrite Hr.
  - apply lookups_paired_none. intros ev Hin. by apply elem_of_nil in Hin.
  - apply refetch_and_copy_lookups.
Qed.

Lemma copy_auto_scaling_group_lookups g params w :
  lookups_paired (dict_get params "source_asg_name")
    (trace (copy_auto_scaling_group P g params w)).
Proof.
  rewrite copy_auto_scaling_group_run. cbv zeta.
  repeat case_match; rewrite ?trace_prepend, ?trace_except_fail_json;
    cbn [trace].
  all: try (apply lookups_paired_none; intros ev Hin; split_elem Hin; by subst).
  apply (lookups_paired_app _ [_; _; _]).
  - intros ev Hin. split_elem Hin; by subst.
  - apply inner_try_lookups.
Qed.

(** C4: the call that follows the creation of a policy is the lookup of one
    alarm name, "<source>-ScaleUp" when the policy's scaling adjustment is
    strictly positive and "<source>-ScaleDown" otherwise, <source> being
    the text of the source group's name; and the script looks up alarms
    nowhere else. *)
Theorem alarm_looked_up_by_convention g params w :
  let t := trace (copy_auto_scaling_group P g params w) in
  let source := py_str (dict_get params "source_asg_name") in
  (forall j policy,
     t !! j = Some (CreateScalingPolicy policy, Created) ->
     exists r,
       t !! S j =
       Some (DescribeAlarms
               [if decide (0 < scaling_adjustment policy)
                then source +:+ "-ScaleUp"
                else source +:+ "-ScaleDown"], r)) /\
  (forall i names r,
     t !! i = Some (DescribeAlarms names, r) ->
     exists j policy,
       i = S j /\
       t !! j = Some (CreateScalingPolicy policy, Created) /\
       (0 < scaling_adjustment policy -> names = [source +:+ "-ScaleUp"]) /\
       (scaling_adjustment policy <= 0 -> names = [source +:+ "-ScaleDown"])).
Proof.
  cbv zeta. destruct (copy_auto_scaling_group_lookups g params w)
    as [Hnext Hprev].
  split.
  - intros j policy Hj. apply Hnext in Hj as [r Hj]. exists r.
    rewrite Hj. unfold alarm_name_for.
    case_decide; destruct (Z.ltb_spec 0 (scaling_adjustment policy));
      done || lia.
  - intros i names r Hi. apply Hprev in Hi as (j & policy & -> & Hj & ->).
    exists j, policy. unfold alarm_name_for.
    destruct (Z.ltb_spec 0 (scaling_adjustment policy));
      repeat split; done || lia.
Qed.

End Claims.

(** ** A run that returns

    When the script returns, it has created one policy per source policy,
    in order, each with the group reference rewritten, and as many
    alarms. *)

Lemma as_name_set_as_group (v : PyVal) (pols : list ScalingPolicy) :
  as_name <$> ((fun sp => set_as_group sp v) <$> pols) = as_name <$> pols.
Proof. rewrite <- list_fmap_compose. by apply list_fmap_ext. Qed.

Section Returns.

Context (P : Provider).
Implicit Types (w : World P) (g : Globals P).

Lemma copy_policies_returns src asg pols w :
  outcome (copy_policies P src asg pols w) = inr tt ->
  created_policies (trace (copy_policies P src asg pols w))
    = (fun sp => set_as_group sp (name asg)) <$> pols /\
  length (created_alarms (trace (copy_policies P src asg pols w)))
    = length pols.
Proof.
  revert w. induction pols as [|sp pols IH]; intros w; [done|].
  rewrite copy_policies_cons. cbv zeta.
  repeat case_match; rewrite ?trace_prepend, ?outcome_prepend;
    cbn [trace outcome]; try done.
  intros Hreturns. destruct (IH _ Hreturns) as [Hpolicies Halarms].
  unfold created_policies, created_alarms in *.
  rewrite !omap_app, Hpolicies, length_app, Halarms. done.
Qed.

Lemma refetch_and_copy_returns g src group_name pols w result :
  outcome (refetch_and_copy P g src group_name pols w) = inr result ->
  exists as_group others w1,
    get_all_groups P [group_name] w = (inr (as_group :: others), w1) /\
    created_policies (trace (refetch_and_copy P g src group_name pols w))
      = (fun sp => set_as_group sp (name as_group)) <$> pols /\
    length (created_alarms (trace (refetch_and_copy P g src group_name pols w)))
      = length pols.
Proof.
  rewrite refetch_and_copy_run. cbv zeta.
  repeat case_match; rewrite ?trace_prepend, ?outcome_prepend;
    cbn [trace outcome]; try done.
  rewrite (proj1 (bind_const_ret P _ _ _)), (proj2 (bind_const_ret P _ _ _)).
  destruct (outcome (copy_policies _ _ _ _ _)) as [|[]] eqn:Hloop; [done|].
  intros _. apply copy_policies_returns in Hloop as [Hpolicies Halarms].
  do 3 eexists. split; [done|].
  unfold created_policies, created_alarms in *.
  rewrite !omap_app, Hpolicies, length_app, Halarms. done.
Qed.

Lemma inner_try_returns g params ag pols w result :
  outcome (inner_try P g params ag pols w) = inr result ->
  exists as_group others w' w1,
    get_all_groups P [dict_get params "group_name"] w'
      = (inr (as_group :: others), w1) /\
    created_policies (trace (inner_try P g params ag pols w))
      = (fun sp => set_as_group sp (name as_group)) <$> pols /\
    length (created_alarms (trace (inner_try P g params ag pols w)))
      = length pols.
Proof.
  rewrite inner_try_run. cbv zeta.
  destruct (create_auto_scaling_group P ag w) as [[msg|[]] w1]; [done|].
  rewrite trace_prepend, outcome_prepend.
  destruct (after_create_cases P g params
    (refetch_and_copy P g (dict_get params "source_asg_name")
       (dict_get params "group_name") pols) w1)
    as [(exn & w' & _ & Hr)|[w' Hr]]; cbv zeta in Hr; rewrite Hr; [done|].
  intros Hreturns. apply refetch_and_copy_returns in Hreturns
    as (as_group & others & w2 & Hrefetch & Hpolicies & Halarms).
  exists as_group, others, w', w2. split; [done|].
  unfold created_policies, created_alarms in *.
  rewrite !omap_app, Hpolicies, length_app, Halarms. done.
Qed.

(** X6: the run that returns has sent every source policy for creation,
    in the order of the source policies, each as it was fetched (its name,
    its adjustment, and its group reference [as_name], which is still the
    source group's) but for the attribute [as_group], assigned the new
    group's name; and it has created as many alarms as policies. *)
Lemma returning_run_creates_every_policy g params w result :
  lookup_by_name_faithful P ->
  let r := copy_auto_scaling_group P g params w in
  outcome r = inr result ->
  exists source_policies,
    (GetAllPolicies (dict_get params "source_asg_name"),
     Policies source_policies) ∈ trace r /\
    created_policies (trace r)
      = (fun sp => set_as_group sp (dict_get params "group_name"))
          <$> source_policies /\
    as_name <$> created_policies (trace r) = as_name <$> source_policies /\
    length (created_alarms (trace r)) = length source_policies.
Proof.
  intros Hfaithful. cbv zeta.
  rewrite copy_auto_scaling_group_run. cbv zeta.
  repeat case_match; rewrite ?trace_prepend, ?outcome_prepend,
    ?trace_except_fail_json, ?outcome_except_fail_json;
    cbn [trace outcome]; try done.
  destruct (outcome (inner_try _ _ _ _ _ _)) as [[]|result'] eqn:Hinner;
    try done.
  intros _. apply inner_try_returns in Hinner
    as (as_group & others & w' & w4 & Hrefetch & Hpolicies & Halarms).
  pose proof (Hfaithful _ _ _ _ Hrefetch as_group (list_elem_of_here _ _))
    as Hname.
  apply list_elem_of_singleton in Hname. rewrite Hname in Hpolicies.
  eexists. split; [apply list_elem_of_further, list_elem_of_here|].
  unfold created_policies, created_alarms in *.
  rewrite !omap_app, Hpolicies, length_app, Halarms.
  split; [done|]. split; [|done]. cbn. apply as_name_set_as_group.
Qed.

End Returns.

(** ** The entry point *)

Section MainClaims.

Context (P : Provider).
Implicit Types (w : World P) (e : Event) (g : Globals P).

Lemma trace_bind_silent {A B} (m : M (World P) A) (k : A -> M (World P) B) w :
  (forall a w', trace (k a w') = []) ->
  trace (bind m k w) = trace (m w).
Proof.
  intros Hsilent. unfold bind. destruct (m w) as [[exn|a] w1 t1]; [done|].
  by rewrite trace_prepend, Hsilent, app_nil_r.
Qed.

(** The calls [main] makes are those of [copy_auto_scaling_group], run on
    parameters with declared keys only. *)
Lemma main_events g ec2_argument_spec HAS_BOTO connect_to_aws args w e :
  e ∈ trace (main P g ec2_argument_spec HAS_BOTO connect_to_aws args w) ->
  exists params,
    dom params ⊆ dom (argument_spec ec2_argument_spec) /\
    e ∈ trace (copy_auto_scaling_group P g params w).
Proof.
  unfold main, AnsibleModule, fail_json.
  destruct (decide (dom args ⊆ _)) as [Hdeclared|];
    [|rewrite bind_raise; intros Hin; by apply elem_of_nil in Hin].
  destruct (decide (dom (filter _ _) ⊆ _));
    [|rewrite bind_raise; intros Hin; by apply elem_of_nil in Hin].
  rewrite bind_ret.
  destruct HAS_BOTO; cbn [negb];
    [|rewrite bind_raise; intros Hin; by apply elem_of_nil in Hin].
  rewrite bind_ret.
  destruct connect_to_aws as [[] []|msg]; cbn [negb orb];
    try (rewrite bind_raise; intros Hin; by apply elem_of_nil in Hin).
  rewrite bind_ret, trace_bind_silent.
  - intros Hin. eexists. split; [|done].
    rewrite dom_union_L, dom_fmap_L. set_solver.
  - intros [changed props] w'. unfold exit_json.
    by destruct (props !! "changed").
Qed.

(** The names [copy_auto_scaling_group] creates and looks up under. *)
Lemma copy_auto_scaling_group_arguments g params w e :
  e ∈ trace (copy_auto_scaling_group P g params w) ->
  (forall ag r, e = (CreateAutoScalingGroup ag, r) ->
     name ag = dict_get params "group_name") /\
  (forall names r, e = (GetAllLaunchConfigurations names, r) ->
     names = [dict_get params "launch_config_name"]).
Proof.
  intros Hin. split.
  - intros ag r ->. apply created_group_is_new_group in Hin
      as (? & ? & ? & ? & _ & _ & ->). done.
  - intros names r ->. revert Hin.
    rewrite copy_auto_scaling_group_run. cbv zeta.
    repeat case_match; rewrite ?trace_prepend, ?trace_except_fail_json;
      cbn [trace]; intros Hin; split_elem Hin; simplify_eq; try done.
    by apply inner_try_no_launch_configuration_lookup in Hin.
Qed.

Lemma undeclared_key_is_None (spec : gmap string ArgOpts) (params : Properties) k :
  dom params ⊆ dom spec -> k ∉ dom spec -> dict_get params k = PNone.
Proof.
  intros Hdom Hk. unfold dict_get.
  assert (params !! k = None) as ->; [|done].
  apply not_elem_of_dom. set_solver.
Qed.

(** C10: [main] declares the keys "region", "source_asg_name" and "name"
    (and those of [ec2_argument_spec], none of which is one of the four
    below).  So in the parameters [AnsibleModule] hands over, "group_name",
    "launch_config_name", "wait_for_instances" and "wait_timeout" are all
    absent and read as None: any group [main] creates is named None, not by
    the value given under "name", and its launch configuration is element
    zero of a lookup for the name None. *)
Theorem declared_surface_leaves_reads_absent
    g ec2_argument_spec HAS_BOTO connect_to_aws args w :
  (forall k, k ∈ ["group_name"; "launch_config_name"; "wait_for_instances";
                  "wait_timeout"] -> k ∉ dom ec2_argument_spec) ->
  (forall params w', 
     AnsibleModule (argument_spec ec2_argument_spec) args w
       = mkRun (inr params) w' [] ->
     dict_get params "group_name" = PNone /\
     dict_get params "launch_config_name" = PNone /\
     dict_get params "wait_for_instances" = PNone /\
     dict_get params "wait_timeout" = PNone) /\
  (forall e,
     e ∈ trace (main P g ec2_argument_spec HAS_BOTO connect_to_aws args w) ->
     (forall ag r, e = (CreateAutoScalingGroup ag, r) -> name ag = PNone) /\
     (forall names r, e = (GetAllLaunchConfigurations names, r) ->
        names = [PNone])).
Proof.
  intros Hec2.
  assert (forall k, k ∈ ["group_name"; "launch_config_name";
                         "wait_for_instances"; "wait_timeout"] ->
                    k ∉ dom (argument_spec ec2_argument_spec)) as Hspec.
  { intros k Hk Hin. unfold argument_spec, update in Hin.
    rewrite dom_union_L, !dom_insert_L, dom_empty_L in Hin.
    apply elem_of_union in Hin as [Hin|Hin]; [|by apply (Hec2 k)].
    set_unfold. naive_solver. }
  split.
  - intros params w'. unfold AnsibleModule.
    destruct (decide (dom args ⊆ _)) as [Hdeclared|]; [|done].
    destruct (decide (dom (filter _ _) ⊆ _)); [|done].
    intros [= <- _].
    assert (dom (args ∪ ((fun _ => PNone) <$> argument_spec ec2_argument_spec))
              ⊆ dom (argument_spec ec2_argument_spec)) as Hdom.
    { rewrite dom_union_L, dom_fmap_L. set_solver. }
    repeat split;
      (eapply undeclared_key_is_None; [exact Hdom|]; apply Hspec; set_solver).
  - intros e Hin. apply main_events in Hin as (params & Hdom & Hin).
    apply copy_auto_scaling_group_arguments in Hin as [Hname Hlookup].
    split.
    + intros ag r He. rewrite (Hname ag r He).
      eapply undeclared_key_is_None; [exact Hdom|]. apply Hspec. set_solver.
    + intros names r He. rewrite (Hlookup names r He). f_equal.
      eapply undeclared_key_is_None; [exact Hdom|]. apply Hspec. set_solver.
Qed.

End MainClaims.

(** ** Runs on the in-memory account *)

Lemma InMemory_lookup_by_name_faithful : lookup_by_name_faithful InMemory.
Proof.
  intros names c groups c' [= <- _] grp Hin.
  by apply list_elem_of_filter in Hin as [? _].
Qed.

(** The example of the specification: "asg-prod" with capacities 2/10/4,
    a +10 and a -10 policy and the two alarms, copied to "asg-prod-copy".
    The group has the source's capacities and the two alarms are
    dimensioned to the copy; the two policies are sent with the source's
    name as their group. *)
Example copy_of_asg_prod :
  let r := copy_auto_scaling_group InMemory globals_with_report
             params_with_launch_config account in
  match outcome r with
  | inr (changed, asg_properties) =>
      changed = true /\
      asg_properties !! "name" = Some (PStr "asg-prod-copy")
  | inl _ => False
  end /\
  trace r =
    [(GetAllGroups [PStr "asg-prod"], Groups [asg_prod]);
     (GetAllPolicies (PStr "asg-prod"), Policies [policy_up; policy_down]);
     (GetAllLaunchConfigurations [PStr "lc-next"],
      LaunchConfigurations [lc_next]);
     (CreateAutoScalingGroup asg_prod_copy, Created);
     (GetAllGroups [PStr "asg-prod-copy"], Groups [asg_prod_copy]);
     (CreateScalingPolicy policy_up_copy, Created);
     (DescribeAlarms ["asg-prod-ScaleUp"], Alarms [alarm_up]);
     (CreateAlarm alarm_up_copy, Created);
     (CreateScalingPolicy policy_down_copy, Created);
     (DescribeAlarms ["asg-prod-ScaleDown"], Alarms [alarm_down]);
     (CreateAlarm alarm_down_copy, Created)] /\
  (min_size asg_prod_copy, max_size asg_prod_copy,
   desired_capacity asg_prod_copy) = (2, 10, 4) /\
  as_name <$> created_policies (trace r)
    = [PStr "asg-prod"; PStr "asg-prod"] /\
  as_group <$> created_policies (trace r)
    = [Some (PStr "asg-prod-copy"); Some (PStr "asg-prod-copy")] /\
  (fun a => dimensions a !! "AutoScalingGroupName") <$> created_alarms (trace r)
    = [Some (DimName (PStr "asg-prod-copy"));
       Some (DimName (PStr "asg-prod-copy"))].
Proof. vm_compute. done. Qed.

(** C1: the load-balancer override is omitted (no "load_balancers" key),
    the source group has the load balancer "elb-prod", and the group sent
    for creation has the load-balancer list ["lc-next"], the name of the
    launch configuration: line 83 reads "launch_config_name". *)
Theorem load_balancers_not_inherited_without_override :
  let r := copy_auto_scaling_group InMemory globals_with_report
             params_with_launch_config account in
  params_with_launch_config !! "load_balancers" = None /\
  load_balancers asg_prod = [PStr "elb-prod"] /\
  load_balancers <$> created_groups (trace r) = [[PStr "lc-next"]].
Proof. vm_compute. done. Qed.

(** ** Witnesses: the theorems at the runs above *)

(** An event at a known position of a trace is in the trace. *)
Ltac at_position i :=
  apply (list_elem_of_lookup_2 _ i); vm_compute; reflexivity.

Lemma source_lookup_not_unique_fails_witness :
  (let r := copy_auto_scaling_group InMemory globals_with_report
              params_unknown_source account in
   outcome r = inl (FailJson "Unable to find source group asg-none") /\
   forall e, e ∈ trace r -> is_creation e.1 = false) /\
  (let r := copy_auto_scaling_group InMemory globals_with_report
              params_with_launch_config account_twice in
   outcome r = inl (FailJson "Unable to find source group asg-prod") /\
   forall e, e ∈ trace r -> is_creation e.1 = false).
Proof.
  split.
  - destruct (source_lookup_not_unique_fails InMemory globals_with_report
                params_unknown_source account [] account)
      as (Houtcome & _ & Hcalls);
      [vm_compute; reflexivity | cbn; lia | ].
    split; [exact Houtcome | exact Hcalls].
  - destruct (source_lookup_not_unique_fails InMemory globals_with_report
                params_with_launch_config account_twice
                [asg_prod; asg_prod] account_twice)
      as (Houtcome & _ & Hcalls);
      [vm_compute; reflexivity | cbn; lia | ].
    split; [exact Houtcome | exact Hcalls].
Defined.

Lemma rejected_group_creation_fails_witness :
  let r := copy_auto_scaling_group InMemory globals_with_report
             params_same_name account in
  let ag := new_group (PStr "asg-prod") (PStr "lc-next") asg_prod lc_next in
  (CreateAutoScalingGroup ag, Rejected already_exists) ∈ trace r /\
  outcome r = inl (FailJson already_exists) /\
  forall e, e ∈ trace r -> is_policy_or_alarm_creation e.1 = false.
Proof.
  cbv zeta.
  assert ((CreateAutoScalingGroup
             (new_group (PStr "asg-prod") (PStr "lc-next") asg_prod lc_next),
           Rejected already_exists)
            ∈ trace (copy_auto_scaling_group InMemory globals_with_report
                       params_same_name account)) as Hin.
  { at_position 3%nat. }
  split; [exact Hin|].
  exact (rejected_group_creation_fails InMemory globals_with_report
           params_same_name account _ _ Hin).
Defined.


Lemma load_balancers_read_from_launch_config_name_witness :
  truthy (dict_get params_with_launch_config "launch_config_name") = true /\
  load_balancers asg_prod_copy = [PStr "lc-next"].
Proof.
  split; [reflexivity|].
  apply (load_balancers_read_from_launch_config_name InMemory
           globals_with_report params_with_launch_config (PStr "elb-other")
           account asg_prod_copy Created).
  - reflexivity.
  - at_position 3%nat.
Defined.


Lemma alarm_looked_up_by_convention_witness :
  let t := trace (copy_auto_scaling_group InMemory globals_with_report
                    params_with_launch_config account) in
  (exists r, t !! 6%nat = Some (DescribeAlarms ["asg-prod-ScaleUp"], r)) /\
  (exists r, t !! 9%nat = Some (DescribeAlarms ["asg-prod-ScaleDown"], r)).
Proof.
  cbv zeta.
  destruct (alarm_looked_up_by_convention InMemory globals_with_report
              params_with_launch_config account) as [Hnext _].
  split.
  - apply (Hnext 5%nat policy_up_copy). vm_compute; reflexivity.
  - apply (Hnext 8%nat policy_down_copy). vm_compute; reflexivity.
Defined.

Lemma wait_for_instances_raises_NameError_witness :
  let r := copy_auto_scaling_group InMemory (globals_of_file InMemory)
             params_with_wait account in
  is_True (dict_get params_with_wait "wait_for_instances") = true /\
  (CreateAutoScalingGroup asg_prod_copy, Created) ∈ trace r /\
  outcome r = inl (NameError "wait_for_new_inst") /\
  exists id before,
    outcome r = inl (NameError id) /\
    trace r = before ++ [(CreateAutoScalingGroup asg_prod_copy, Created)].
Proof.
  cbv zeta.
  split; [reflexivity|].
  split; [at_position 3%nat|].
  split; [vm_compute; reflexivity|].
  apply (wait_for_instances_raises_NameError InMemory (globals_of_file InMemory)
           params_with_wait account asg_prod_copy).
  - reflexivity.
  - left. reflexivity.
  - at_position 3%nat.
Defined.

Lemma unguarded_element_zero_witness :
  outcome (copy_auto_scaling_group InMemory globals_with_report
             copy_params account) = inl IndexError /\
  outcome (copy_auto_scaling_group Lagging lagging_globals
             params_with_launch_config account) = inl IndexError /\
  outcome (copy_auto_scaling_group InMemory globals_with_report
             params_with_launch_config account_without_ScaleDown)
    = inl IndexError /\
  (let r := copy_auto_scaling_group InMemory globals_with_report
              params_with_launch_config account_two_configurations in
   (GetAllLaunchConfigurations [PStr "lc-next"],
    LaunchConfigurations [lc_next; lc_next_shadow]) ∈ trace r /\
   (CreateAutoScalingGroup asg_prod_copy, Created) ∈ trace r /\
   launch_config asg_prod_copy = lc_next).
Proof.
  split; [|split; [|split]].
  - apply (proj1 (unguarded_element_zero InMemory globals_with_report
                    copy_params account)).
    left. exists [PNone]. at_position 2%nat.
  - apply (proj1 (unguarded_element_zero Lagging lagging_globals
                    params_with_launch_config account)).
    right; left. exists asg_prod_copy, [PStr "asg-prod-copy"].
    split; [at_position 3%nat | at_position 4%nat].
  - apply (proj1 (unguarded_element_zero InMemory globals_with_report
                    params_with_launch_config account_without_ScaleDown)).
    right; right. exists ["asg-prod-ScaleDown"]. at_position 9%nat.
  - cbv zeta.
    assert ((GetAllLaunchConfigurations [PStr "lc-next"],
             LaunchConfigurations [lc_next; lc_next_shadow])
              ∈ trace (copy_auto_scaling_group InMemory globals_with_report
                         params_with_launch_config account_two_configurations))
      as Hlookup by at_position 2%nat.
    assert ((CreateAutoScalingGroup asg_prod_copy, Created)
              ∈ trace (copy_auto_scaling_group InMemory globals_with_report
                         params_with_launch_config account_two_configurations))
      as Hcreated by at_position 3%nat.
    split; [exact Hlookup|]. split; [exact Hcreated|].
    exact (proj2 (unguarded_element_zero InMemory globals_with_report
                    params_with_launch_config account_two_configurations)
             _ _ _ _ _ Hlookup Hcreated).
Defined.

Lemma ansible_ec2_argument_spec_keys k :
  k ∈ ["group_name"; "launch_config_name"; "wait_for_instances";
       "wait_timeout"] ->
  k ∉ dom ansible_ec2_argument_spec.
Proof.
  intros Hk. apply not_elem_of_dom.
  split_elem Hk; subst; vm_compute; reflexivity.
Qed.

Lemma declared_surface_leaves_reads_absent_witness :
  let r := main InMemory globals_with_report ansible_ec2_argument_spec true
             (Connected true true) task_args account in
  (forall params w',
     AnsibleModule (argument_spec ansible_ec2_argument_spec) task_args account
       = mkRun (inr params) w' [] ->
     dict_get params "group_name" = PNone /\
     dict_get params "launch_config_name" = PNone /\
     dict_get params "wait_for_instances" = PNone /\
     dict_get params "wait_timeout" = PNone) /\
  (GetAllLaunchConfigurations [PNone], LaunchConfigurations []) ∈ trace r.
Proof.
  cbv zeta.
  destruct (declared_surface_leaves_reads_absent InMemory globals_with_report
              ansible_ec2_argument_spec true (Connected true true) task_args
              account ansible_ec2_argument_spec_keys) as [Hreads _].
  split; [exact Hreads|]. at_position 2%nat.
Defined.

(** * Further properties of the script *)

(** ** Rejected calls *)

Section Rejections.

Context (P : Provider).
Implicit Types (w : World P) (e : Event) (g : Globals P).

(** The three ways the inner [try] can go. *)
Lemma inner_try_shape g params ag pols w :
  let r := inner_try P g params ag pols w in
  (exists msg w1,
     r = mkRun (inl (BotoServerError msg)) w1
           [(CreateAutoScalingGroup ag, Rejected msg)]) \/
  (exists exn w1,
     is_True (dict_get params "wait_for_instances") = true /\
     r = mkRun (inl exn) w1 [(CreateAutoScalingGroup ag, Created)]) \/
  (exists w1,
     r = prepend [(CreateAutoScalingGroup ag, Created)]
           (refetch_and_copy P g (dict_get params "source_asg_name")
              (dict_get params "group_name") pols w1)).
Proof.
  cbv zeta. rewrite inner_try_run. cbv zeta.
  destruct (create_auto_scaling_group P ag w) as [[msg|[]] w1]; [eauto|].
  destruct (after_create_cases P g params
    (refetch_and_copy P g (dict_get params "source_asg_name")
       (dict_get params "group_name") pols) w1)
    as [(exn & w' & Hwait & Hr)|[w' Hr]]; cbv zeta in Hr; rewrite Hr.
  - right; left. exists exn, w'. done.
  - right; right. eauto.
Qed.

(** A run that ends with the rejection of the call [c]. *)
Lemma copy_policies_rejected src asg pols w c msg :
  (c, Rejected msg) ∈ trace (copy_policies P src asg pols w) ->
  (exists before,
     trace (copy_policies P src asg pols w) = before ++ [(c, Rejected msg)]) /\
  outcome (copy_policies P src asg pols w) = inl (BotoServerError msg).
Proof.
  revert w. induction pols as [|sp pols IH]; intros w.
  { intros Hin. by apply elem_of_nil in Hin. }
  rewrite copy_policies_cons. cbv zeta.
  repeat case_match; rewrite ?trace_prepend, ?outcome_prepend;
    cbn [trace outcome]; intros Hin; split_elem Hin; simplify_eq.
  - split; [by exists []|done].
  - split; [by eexists [_]|done].
  - split; [by eexists [_; _]|done].
  - apply IH in Hin as [[before ->] ->]. split; [|done].
    by eexists (_ :: _ :: _ :: before).
Qed.

Lemma refetch_and_copy_rejected g src group_name pols w c msg :
  let r := refetch_and_copy P g src group_name pols w in
  (c, Rejected msg) ∈ trace r ->
  (exists before, trace r = before ++ [(c, Rejected msg)]) /\
  outcome r = inl (BotoServerError msg).
Proof.
  cbv zeta. rewrite refetch_and_copy_run. cbv zeta.
  repeat case_match; rewrite ?trace_prepend, ?outcome_prepend;
    cbn [trace outcome]; intros Hin; split_elem Hin; simplify_eq.
  - split; [by exists []|done].
  - rewrite (proj1 (bind_const_ret P _ _ _)) in Hin |- *.
    rewrite (proj2 (bind_const_ret P _ _ _)).
    apply copy_policies_rejected in Hin as [[before ->] ->].
    split; [|done]. by eexists (_ :: before).
Qed.

Lemma inner_try_rejected_last g params ag pols w c msg :
  let r := inner_try P g params ag pols w in
  (c, Rejected msg) ∈ trace r ->
  (exists before, trace r = before ++ [(c, Rejected msg)]) /\
  outcome r = inl (BotoServerError msg).
Proof.
  cbv zeta.
  destruct (inner_try_shape g params ag pols w)
    as [(msg' & w1 & Hr)|[(exn & w1 & _ & Hr)|(w1 & Hr)]];
    cbv zeta in Hr; rewrite Hr; rewrite ?trace_prepend, ?outcome_prepend;
    cbn [trace outcome]; intros Hin; split_elem Hin; simplify_eq.
  - split; [by exists []|done].
  - apply refetch_and_copy_rejected in Hin as [[before ->] ->].
    split; [|done]. by eexists (_ :: before).
Qed.

(** X1: once the script has sent the group for creation (line 117), a
    call the provider rejects, be it that creation, the refetch, the
    creation of a policy, the lookup or the creation of an alarm, is the
    last call of the run, and the handler of lines 145-146 ends the run
    through [fail_json] with the provider's message: nothing is retried
    and nothing that was created is undone. *)
Theorem rejection_after_group_creation_ends_run g params w ag rep c msg :
  let r := copy_auto_scaling_group P g params w in
  (CreateAutoScalingGroup ag, rep) ∈ trace r ->
  (c, Rejected msg) ∈ trace r ->
  outcome r = inl (FailJson msg) /\
  exists before, trace r = before ++ [(c, Rejected msg)].
Proof.
  cbv zeta. rewrite copy_auto_scaling_group_run. cbv zeta.
  repeat case_match; rewrite ?trace_prepend, ?outcome_prepend,
    ?trace_except_fail_json, ?outcome_except_fail_json;
    cbn [trace outcome]; intros Hcreated Hin; split_elem Hcreated;
    simplify_eq.
  split_elem Hin; simplify_eq.
  apply inner_try_rejected_last in Hin as [[before ->] ->].
  split; [done|]. by eexists (_ :: _ :: _ :: before).
Qed.

End Rejections.

(** ** The order of the calls *)

Section CallOrder.

Context (P : Provider).
Implicit Types (w : World P) (e : Event) (g : Globals P).

Lemma refetch_and_copy_no_group_creation g src group_name pols w ag rep :
  (CreateAutoScalingGroup ag, rep)
    ∉ trace (refetch_and_copy P g src group_name pols w).
Proof.
  intros Hin. apply refetch_and_copy_loop_events in Hin
    as [[r' ?]|(as_group & ? & ? & _ & Hin)]; done.
Qed.

(** X2: the group is sent for creation once at most, as the fourth call of
    the run, after the lookup of the source group has returned exactly one
    group, the lookup of its policies has returned, and the lookup of the
    launch configuration has returned at least one. *)
Theorem group_creation_follows_the_three_lookups g params w ag rep :
  let r := copy_auto_scaling_group P g params w in
  (CreateAutoScalingGroup ag, rep) ∈ trace r ->
  exists source_group source_policies launch_config others rest,
    trace r =
      (GetAllGroups [dict_get params "source_asg_name"],
       Groups [source_group])
      :: (GetAllPolicies (dict_get params "source_asg_name"),
          Policies source_policies)
      :: (GetAllLaunchConfigurations [dict_get params "launch_config_name"],
          LaunchConfigurations (launch_config :: others))
      :: (CreateAutoScalingGroup ag, rep) :: rest /\
    forall ag' rep', (CreateAutoScalingGroup ag', rep') ∉ rest.
Proof.
  cbv zeta. rewrite copy_auto_scaling_group_run. cbv zeta.
  repeat case_match; rewrite ?trace_prepend, ?trace_except_fail_json;
    cbn [trace]; intros Hin; split_elem Hin; simplify_eq.
  revert Hin.
  match goal with
  | |- context [inner_try P g params ?ag0 ?pols ?w0] =>
      destruct (inner_try_shape P g params ag0 pols w0)
        as [(msg' & w' & Hr)|[(exn & w' & _ & Hr)|(w' & Hr)]];
      cbv zeta in Hr; rewrite Hr
  end; rewrite ?trace_prepend; cbn [trace]; intros Hin; split_elem Hin;
    simplify_eq.
  - do 5 eexists. split; [done|]. intros ag' rep' Hrest.
    by apply elem_of_nil in Hrest.
  - do 5 eexists. split; [done|]. intros ag' rep' Hrest.
    by apply elem_of_nil in Hrest.
  - do 5 eexists. split; [done|]. intros ag' rep'.
    apply refetch_and_copy_no_group_creation.
  - by apply refetch_and_copy_no_group_creation in Hin.
Qed.

(** A policy or alarm creation of [refetch_and_copy] comes after a refetch
    that returned a group. *)
Lemma refetch_and_copy_creation_after_refetch g src group_name pols w e :
  e ∈ trace (refetch_and_copy P g src group_name pols w) ->
  is_policy_or_alarm_creation e.1 = true ->
  exists as_group others,
    trace (refetch_and_copy P g src group_name pols w) !! 0%nat
      = Some (GetAllGroups [group_name], Groups (as_group :: others)).
Proof.
  rewrite refetch_and_copy_run. cbv zeta.
  repeat case_match; rewrite ?trace_prepend; cbn [trace];
    intros Hin Hcreation; split_elem Hin; subst; try done.
  cbn. eauto.
Qed.

(** X3: a policy or an alarm is created only after the group was created
    with success (the fourth call) and the lookup of the new group's name
    (the fifth call) returned at least one group. *)
Theorem policies_and_alarms_follow_group_creation g params w e :
  let r := copy_auto_scaling_group P g params w in
  e ∈ trace r ->
  is_policy_or_alarm_creation e.1 = true ->
  exists ag as_group others,
    trace r !! 3%nat = Some (CreateAutoScalingGroup ag, Created) /\
    trace r !! 4%nat
      = Some (GetAllGroups [dict_get params "group_name"],
              Groups (as_group :: others)).
Proof.
  cbv zeta. rewrite copy_auto_scaling_group_run. cbv zeta.
  repeat case_match; rewrite ?trace_prepend, ?trace_except_fail_json;
    cbn [trace]; intros Hin Hcreation; split_elem Hin; subst; try done.
  revert Hin.
  match goal with
  | |- context [inner_try P g params ?ag0 ?pols ?w0] =>
      destruct (inner_try_shape P g params ag0 pols w0)
        as [(msg' & w' & Hr)|[(exn & w' & _ & Hr)|(w' & Hr)]];
      cbv zeta in Hr; rewrite Hr
  end; rewrite ?trace_prepend; cbn [trace]; intros Hin; split_elem Hin;
    subst; try done.
  destruct (refetch_and_copy_creation_after_refetch _ _ _ _ _ _ Hin Hcreation)
    as (as_group & others & Hrefetch).
  cbn. eauto.
Qed.

(** What [refetch_and_copy] returns. *)
Lemma refetch_and_copy_result g src group_name pols w changed asg_properties :
  outcome (refetch_and_copy P g src group_name pols w)
    = inr (changed, asg_properties) ->
  changed = true /\
  exists get_properties as_group others,
    glob_get_properties P g = Some get_properties /\
    trace (refetch_and_copy P g src group_name pols w) !! 0%nat
      = Some (GetAllGroups [group_name], Groups (as_group :: others)) /\
    get_properties as_group = inr asg_properties.
Proof.
  rewrite refetch_and_copy_run. cbv zeta.
  repeat case_match; rewrite ?trace_prepend, ?outcome_prepend;
    cbn [trace outcome]; try done.
  rewrite (proj2 (bind_const_ret P _ _ _)).
  destruct (outcome (copy_policies _ _ _ _ _)); [done|].
  intros [= <- <-]. split; [done|]. cbn. eauto 6.
Qed.

(** X4: when the script returns, the flag it returns is True and the
    properties it returns are those [get_properties] computes for element
    zero of the refetch (the fifth call), not for the group object the
    script built. *)
Theorem returned_properties_are_of_the_refetched_group
    g params w changed asg_properties :
  let r := copy_auto_scaling_group P g params w in
  outcome r = inr (changed, asg_properties) ->
  changed = true /\
  exists get_properties as_group others,
    glob_get_properties P g = Some get_properties /\
    trace r !! 4%nat
      = Some (GetAllGroups [dict_get params "group_name"],
              Groups (as_group :: others)) /\
    get_properties as_group = inr asg_properties.
Proof.
  cbv zeta. rewrite copy_auto_scaling_group_run. cbv zeta.
  repeat case_match; rewrite ?trace_prepend, ?outcome_prepend,
    ?trace_except_fail_json, ?outcome_except_fail_json;
    cbn [trace outcome]; try done.
  match goal with
  | |- context [inner_try P g params ?ag0 ?pols ?w0] =>
      destruct (inner_try_shape P g params ag0 pols w0)
        as [(msg' & w' & Hr)|[(exn & w' & _ & Hr)|(w' & Hr)]];
      cbv zeta in Hr; rewrite Hr
  end; rewrite ?trace_prepend, ?outcome_prepend; cbn [trace outcome];
    try done; try (by destruct exn).
  match goal with
  | |- context [outcome (refetch_and_copy P g ?s ?n ?pols ?w0)] =>
      destruct (outcome (refetch_and_copy P g s n pols w0))
        as [[]|[c props]] eqn:Hret
  end; try done.
  intros [= -> ->].
  apply refetch_and_copy_result in Hret
    as [-> (get_properties & as_group & others & ? & Hrefetch & ?)].
  split; [done|]. exists get_properties, as_group, others. cbn. done.
Qed.

Lemma copy_policies_returns_length src asg pols w :
  outcome (copy_policies P src asg pols w) = inr tt ->
  length (trace (copy_policies P src asg pols w)) = (3 * length pols)%nat.
Proof.
  revert w. induction pols as [|sp pols IH]; intros w; [done|].
  rewrite copy_policies_cons. cbv zeta.
  repeat case_match; rewrite ?trace_prepend, ?outcome_prepend;
    cbn [trace outcome]; try done.
  intros Hreturns. rewrite length_app, (IH _ Hreturns). cbn. lia.
Qed.

Lemma refetch_and_copy_returns_length g src group_name pols w result :
  outcome (refetch_and_copy P g src group_name pols w) = inr result ->
  length (trace (refetch_and_copy P g src group_name pols w))
    = (1 + 3 * length pols)%nat.
Proof.
  rewrite refetch_and_copy_run. cbv zeta.
  repeat case_match; rewrite ?trace_prepend, ?outcome_prepend;
    cbn [trace outcome]; try done.
  rewrite (proj1 (bind_const_ret P _ _ _)), (proj2 (bind_const_ret P _ _ _)).
  destruct (outcome (copy_policies _ _ _ _ _)) as [|[]] eqn:Hloop; [done|].
  intros _. cbn. by rewrite (copy_policies_returns_length _ _ _ _ Hloop).
Qed.

(** X5: a run that returns has made exactly 5 + 3n calls, n being the
    number of policies the second call returned: the four calls up to the
    creation of the group, the refetch, and for each policy its creation,
    the lookup of its alarm and the creation of the alarm. *)
Theorem returning_run_call_count g params w result :
  let r := copy_auto_scaling_group P g params w in
  outcome r = inr result ->
  exists source_policies,
    trace r !! 1%nat
      = Some (GetAllPolicies (dict_get params "source_asg_name"),
              Policies source_policies) /\
    length (trace r) = (5 + 3 * length source_policies)%nat.
Proof.
  cbv zeta. rewrite copy_auto_scaling_group_run. cbv zeta.
  repeat case_match; rewrite ?trace_prepend, ?outcome_prepend,
    ?trace_except_fail_json, ?outcome_except_fail_json;
    cbn [trace outcome]; try done.
  match goal with
  | |- context [inner_try P g params ?ag0 ?pols ?w0] =>
      destruct (inner_try_shape P g params ag0 pols w0)
        as [(msg' & w' & Hr)|[(exn & w' & _ & Hr)|(w' & Hr)]];
      cbv zeta in Hr; rewrite Hr
  end; rewrite ?trace_prepend, ?outcome_prepend; cbn [trace outcome];
    try done; try (by destruct exn).
  match goal with
  | |- context [outcome (refetch_and_copy P g ?s ?n ?pols ?w0)] =>
      destruct (outcome (refetch_and_copy P g s n pols w0))
        as [[]|result'] eqn:Hret
  end; try done.
  intros _. eexists. split; [done|].
  cbn. rewrite (refetch_and_copy_returns_length _ _ _ _ _ _ Hret). lia.
Qed.

End CallOrder.

(** ** What is created *)

Section Created.

Context (P : Provider).
Implicit Types (w : World P) (e : Event) (g : Globals P).

Lemma copy_policies_created_prefix src asg pols w :
  created_policies (trace (copy_policies P src asg pols w))
    `prefix_of` (fun sp => set_as_group sp (name asg)) <$> pols.
Proof.
  revert w. induction pols as [|sp pols IH]; intros w; [done|].
  rewrite copy_policies_cons. cbv zeta.
  repeat case_match; rewrite ?trace_prepend; cbn [trace];
    unfold created_policies; rewrite ?omap_app; cbn;
    try apply prefix_nil; apply prefix_cons; try apply prefix_nil.
  apply IH.
Qed.

Lemma refetch_and_copy_created_prefix g src group_name pols w :
  created_policies (trace (refetch_and_copy P g src group_name pols w)) = [] \/
  exists as_group others w1,
    get_all_groups P [group_name] w = (inr (as_group :: others), w1) /\
    created_policies (trace (refetch_and_copy P g src group_name pols w))
      `prefix_of` (fun sp => set_as_group sp (name as_group)) <$> pols.
Proof.
  rewrite refetch_and_copy_run. cbv zeta.
  repeat case_match; rewrite ?trace_prepend; cbn [trace]; try by left.
  right. do 3 eexists. split; [done|].
  rewrite (proj1 (bind_const_ret P _ _ _)).
  unfold created_policies. rewrite omap_app. cbn.
  apply copy_policies_created_prefix.
Qed.

(** X7: in every run, returning or not, the policies created so far are
    the first source policies, in the order the provider listed them: none
    is skipped and none is created twice.  Each is the policy as it was
    fetched but for the attribute [as_group], assigned the new group's
    name; in particular each still has the group reference [as_name] of
    its source policy. *)
Theorem created_policies_are_a_prefix_of_the_source_policies
    g params w source_policies :
  lookup_by_name_faithful P ->
  let r := copy_auto_scaling_group P g params w in
  trace r !! 1%nat
    = Some (GetAllPolicies (dict_get params "source_asg_name"),
            Policies source_policies) ->
  created_policies (trace r)
    `prefix_of` (fun sp => set_as_group sp (dict_get params "group_name"))
                  <$> source_policies /\
  as_name <$> created_policies (trace r)
    `prefix_of` as_name <$> source_policies.
Proof.
  intros Hfaithful. cbv zeta. intros Hpolicies.
  assert (created_policies (trace (copy_auto_scaling_group P g params w))
            `prefix_of` (fun sp => set_as_group sp (dict_get params "group_name"))
                          <$> source_policies) as Hprefix.
  { revert Hpolicies. rewrite copy_auto_scaling_group_run. cbv zeta.
    repeat case_match; rewrite ?trace_prepend, ?trace_except_fail_json;
      cbn [trace]; intros Hpolicies; cbn in Hpolicies; simplify_eq;
      try apply prefix_nil.
    unfold created_policies. rewrite omap_app. cbn.
    match goal with
    | |- context [inner_try P g params ?ag0 ?pols ?w0] =>
        destruct (inner_try_shape P g params ag0 pols w0)
          as [(msg' & w' & Hr)|[(exn & w' & _ & Hr)|(w' & Hr)]];
        cbv zeta in Hr; rewrite Hr
    end; rewrite ?trace_prepend; cbn [trace]; rewrite ?omap_app; cbn;
      try apply prefix_nil.
    match goal with
    | |- context [refetch_and_copy P g ?s ?n ?pols ?w0] =>
        destruct (refetch_and_copy_created_prefix g s n pols w0)
          as [Hnone|(as_group & others & w1' & Hrefetch & Hprefix)]
    end.
    - unfold created_policies in Hnone. rewrite Hnone. apply prefix_nil.
    - pose proof (Hfaithful _ _ _ _ Hrefetch as_group (list_elem_of_here _ _))
        as Hname.
      apply list_elem_of_singleton in Hname. by rewrite Hname in Hprefix. }
  split; [exact Hprefix|].
  destruct Hprefix as [rest Hrest].
  exists (as_name <$> rest).
  by rewrite <- fmap_app, <- Hrest, as_name_set_as_group.
Qed.

Lemma alarms_paired_app (before t : list Event) :
  (forall e, e ∈ before -> is_alarm_creation e.1 = false) ->
  alarms_paired t ->
  (forall a rep, t !! 0%nat ≠ Some (CreateAlarm a, rep)) ->
  alarms_paired (before ++ t).
Proof.
  intros Hbefore Hpaired Hhead i a rep Hi.
  destruct (decide (i < length before)%nat) as [Hlt|Hge].
  - rewrite lookup_app_l in Hi by done.
    by apply list_elem_of_lookup_2, Hbefore in Hi.
  - rewrite lookup_app_r in Hi by lia.
    apply Hpaired in Hi as (j & names & first & others & new_name
                            & Hij & Hj & ->).
    exists (length before + j)%nat, names, first, others, new_name.
    split; [lia|]. split; [|done].
    rewrite lookup_app_r by lia.
    by replace (length before + j - length before)%nat with j by lia.
Qed.

Lemma alarms_paired_none (t : list Event) :
  (forall e, e ∈ t -> is_alarm_creation e.1 = false) -> alarms_paired t.
Proof.
  intros Hnone i a rep Hi. by apply list_elem_of_lookup_2, Hnone in Hi.
Qed.

Lemma copy_policies_alarms_paired src asg pols w :
  alarms_paired (trace (copy_policies P src asg pols w)) /\
  forall a rep,
    trace (copy_policies P src asg pols w) !! 0%nat ≠ Some (CreateAlarm a, rep).
Proof.
  revert w. induction pols as [|sp pols IH]; intros w.
  { split; [|done]. apply alarms_paired_none.
    intros ev Hin. by apply elem_of_nil in Hin. }
  rewrite copy_policies_cons. cbv zeta.
  repeat case_match; rewrite ?trace_prepend; cbn [trace];
    (split; [|done]).
  all: try (apply alarms_paired_none; intros ev Hin; split_elem Hin; by subst).
  - intros [|[|[|i]]] a rep Hi; cbn in Hi; simplify_eq.
    eexists 1%nat, _, _, _, _. done.
  - destruct (IH w2) as [Hpaired Hhead].
    intros [|[|[|i]]] a rep Hi; cbn in Hi; simplify_eq.
    + eexists 1%nat, _, _, _, _. done.
    + apply Hpaired in Hi as (j & names & first & others & new_name
                              & -> & Hj & ->).
      destruct j as [|j].
      * eexists 3%nat, _, _, _, _. done.
      * eexists (S (S (S (S j)))), _, _, _, _. done.
Qed.

Lemma refetch_and_copy_alarms_paired g src group_name pols w :
  alarms_paired (trace (refetch_and_copy P g src group_name pols w)) /\
  forall a rep,
    trace (refetch_and_copy P g src group_name pols w) !! 0%nat
      ≠ Some (CreateAlarm a, rep).
Proof.
  rewrite refetch_and_copy_run. cbv zeta.
  repeat case_match; rewrite ?trace_prepend; cbn [trace]; (split; [|done]).
  all: try (apply alarms_paired_none; intros ev Hin; split_elem Hin; by subst).
  rewrite (proj1 (bind_const_ret P _ _ _)).
  apply (alarms_paired_app [_]).
  - intros ev Hin. split_elem Hin. by subst.
  - apply copy_policies_alarms_paired.
  - apply copy_policies_alarms_paired.
Qed.

Lemma inner_try_alarms_paired g params ag pols w :
  alarms_paired (trace (inner_try P g params ag pols w)) /\
  forall a rep,
    trace (inner_try P g params ag pols w) !! 0%nat ≠ Some (CreateAlarm a, rep).
Proof.
  destruct (inner_try_shape P g params ag pols w)
    as [(msg' & w' & Hr)|[(exn & w' & _ & Hr)|(w' & Hr)]];
    cbv zeta in Hr; rewrite Hr; rewrite ?trace_prepend; cbn [trace];
    (split; [|done]).
  all: try (apply alarms_paired_none; intros ev Hin; split_elem Hin; by subst).
  apply (alarms_paired_app [_]).
  - intros ev Hin. split_elem Hin. by subst.
  - apply refetch_and_copy_alarms_paired.
  - apply refetch_and_copy_alarms_paired.
Qed.

Lemma copy_auto_scaling_group_alarms_paired g params w :
  alarms_paired (trace (copy_auto_scaling_group P g params w)).
Proof.
  rewrite copy_auto_scaling_group_run. cbv zeta.
  repeat case_match; rewrite ?trace_prepend, ?trace_except_fail_json;
    cbn [trace].
  all: try (apply alarms_paired_none; intros ev Hin; split_elem Hin; by subst).
  apply (alarms_paired_app [_; _; _]).
  - intros ev Hin. split_elem Hin; by subst.
  - apply inner_try_alarms_paired.
  - apply inner_try_alarms_paired.
Qed.

(** X8: every alarm the script creates is element zero of the reply to the
    call just before it, sent back with one dimension set: it keeps the
    looked-up alarm's name (so the provider is handed an alarm under the
    source alarm's own name), metric, comparison, threshold and actions (the
    actions of the source alarm, not the new policy), and every dimension
    other than AutoScalingGroupName. *)
Theorem created_alarm_is_the_looked_up_alarm g params w i alarm rep :
  let t := trace (copy_auto_scaling_group P g params w) in
  t !! i = Some (CreateAlarm alarm, rep) ->
  exists j names first others,
    i = S j /\
    t !! j = Some (DescribeAlarms names, Alarms (first :: others)) /\
    alarm_name alarm = alarm_name first /\
    metric alarm = metric first /\
    comparison alarm = comparison first /\
    threshold alarm = threshold first /\
    alarm_actions alarm = alarm_actions first /\
    forall key, key ≠ "AutoScalingGroupName" ->
                dimensions alarm !! key = dimensions first !! key.
Proof.
  cbv zeta. intros Hi.
  apply copy_auto_scaling_group_alarms_paired in Hi
    as (j & names & first & others & new_name & -> & Hj & ->).
  exists j, names, first, others. repeat split; try done.
  intros key Hkey. cbn. by rewrite lookup_insert_ne.
Qed.

(** X9: while [get_properties] is unbound the script cannot get past line
    129: it never returns and never creates a policy or an alarm, and when
    the refetch (the fifth call) has returned a group it ends with
    NameError, the group being created already. *)
Theorem unbound_get_properties_stops_the_copy g params w :
  glob_get_properties P g = None ->
  let r := copy_auto_scaling_group P g params w in
  (forall result, outcome r ≠ inr result) /\
  (forall e, e ∈ trace r -> is_policy_or_alarm_creation e.1 = false) /\
  (forall as_group others,
     trace r !! 4%nat
       = Some (GetAllGroups [dict_get params "group_name"],
               Groups (as_group :: others)) ->
     outcome r = inl (NameError "get_properties") /\
     exists ag, trace r !! 3%nat = Some (CreateAutoScalingGroup ag, Created)).
Proof.
  intros Hunbound. cbv zeta.
  assert (forall src group_name pols w0,
            exists o w1 rep,
              refetch_and_copy P g src group_name pols w0
                = mkRun (inl o) w1 [(GetAllGroups [group_name], rep)] /\
              forall as_group others,
                rep = Groups (as_group :: others) ->
                o = NameError "get_properties") as Hrefetch.
  { intros src group_name pols w0. rewrite refetch_and_copy_run. cbv zeta.
    rewrite Hunbound.
    repeat case_match; simplify_eq; do 3 eexists; (split; [done|]);
      intros as_group others Hrep; by simplify_eq. }
  rewrite copy_auto_scaling_group_run. cbv zeta.
  repeat case_match; rewrite ?trace_prepend, ?outcome_prepend,
    ?trace_except_fail_json, ?outcome_except_fail_json;
    cbn [trace outcome].
  all: try (split; [done|]; split;
            [intros ev Hin; split_elem Hin; by subst
            |intros as_group others Hfifth; by cbn in Hfifth]).
  match goal with
  | |- context [inner_try P g params ?ag0 ?pols ?w0] =>
      destruct (inner_try_shape P g params ag0 pols w0)
        as [(msg' & w' & Hr)|[(exn & w' & _ & Hr)|(w' & Hr)]];
      cbv zeta in Hr; rewrite Hr
  end; rewrite ?trace_prepend, ?outcome_prepend; cbn [trace outcome].
  - split; [done|]. split; [intros ev Hin; split_elem Hin; by subst|].
    intros as_group others Hfifth. by cbn in Hfifth.
  - split; [by destruct exn|]. split; [intros ev Hin; split_elem Hin; by subst|].
    intros as_group others Hfifth. by cbn in Hfifth.
  - match goal with
    | |- context [refetch_and_copy P g ?s ?n ?pols ?w0] =>
        destruct (Hrefetch s n pols w0) as (o & w1' & rep & -> & Hname)
    end.
    cbn [trace outcome]. split; [by destruct o|].
    split; [intros ev Hin; split_elem Hin; by subst|].
    intros as_group others Hfifth. cbn in Hfifth. simplify_eq.
    rewrite (Hname as_group others eq_refl). split; [done|]. cbn. eauto.
Qed.

(** X11: when the value under "launch_config_name" is falsy (None, the
    empty string, False, 0), and only then is the source's list kept: the
    group sent for creation has the source group's load balancers. *)
Theorem load_balancers_inherited_when_launch_config_name_falsy
    g params w source_group w1 ag rep :
  truthy (dict_get params "launch_config_name") = false ->
  get_all_groups P [dict_get params "source_asg_name"] w
    = (inr [source_group], w1) ->
  (CreateAutoScalingGroup ag, rep)
    ∈ trace (copy_auto_scaling_group P g params w) ->
  load_balancers ag = load_balancers source_group.
Proof.
  intros Hfalsy Hsource Hin.
  apply created_group_is_new_group in Hin
    as (source_group' & w1' & launch_config & others & Hsource' & _ & ->).
  rewrite Hsource in Hsource'. simplify_eq. cbn. by rewrite Hfalsy.
Qed.

End Created.

(** ** What the script reads *)

Section Reads.

Context (P : Provider).
Implicit Types (w : World P) (e : Event) (g : Globals P).

(** X10: with the wait not asked for, a run depends on the parameters only
    through the values under "source_asg_name", "group_name" and
    "launch_config_name", and on the globals only through
    [get_properties]: every other key (the "name" and "region" that [main]
    requires, "load_balancers", "wait_timeout") is ignored, and the
    unbound names of the wait do no harm. *)
Theorem run_depends_on_three_keys_and_get_properties g g' params params' w :
  is_True (dict_get params "wait_for_instances") = false ->
  is_True (dict_get params' "wait_for_instances") = false ->
  dict_get params' "source_asg_name" = dict_get params "source_asg_name" ->
  dict_get params' "group_name" = dict_get params "group_name" ->
  dict_get params' "launch_config_name" = dict_get params "launch_config_name" ->
  glob_get_properties P g' = glob_get_properties P g ->
  copy_auto_scaling_group P g' params' w = copy_auto_scaling_group P g params w.
Proof.
  intros Hwait Hwait' Hsource Hname Hconfig Hglobals.
  unfold copy_auto_scaling_group.
  rewrite Hwait, Hwait', Hsource, Hname, Hconfig, Hglobals. done.
Qed.

(** A run whose launch-configuration lookup cannot return anything. *)
Lemma no_launch_configuration_no_creation g params w :
  launch_configurations_by_name_faithful P ->
  (forall s, dict_get params "launch_config_name" ≠ PStr s) ->
  let r := copy_auto_scaling_group P g params w in
  (forall e, e ∈ trace r -> is_creation e.1 = false) /\
  (forall result, outcome r ≠ inr result).
Proof.
  intros Hfaithful Hname. cbv zeta.
  rewrite copy_auto_scaling_group_run. cbv zeta.
  repeat case_match; rewrite ?trace_prepend, ?outcome_prepend,
    ?trace_except_fail_json, ?outcome_except_fail_json;
    cbn [trace outcome].
  all: try (split; [intros ev Hin; split_elem Hin; by subst|done]).
  exfalso.
  match goal with
  | Hlookup : get_all_launch_configurations P _ _ = (inr (?lc :: _), _) |- _ =>
      pose proof (Hfaithful _ _ _ _ Hlookup lc (list_elem_of_here _ _)) as Hin
  end.
  apply list_elem_of_singleton in Hin. by eapply Hname.
Qed.

(** X12: the launch configuration is looked up under the value of
    "launch_config_name" as it is.  When that value is not a string (the
    key is missing, say) and the provider only returns launch
    configurations that have a name asked for, the script creates nothing
    and never returns. *)
Theorem copy_needs_a_launch_config_name g params w :
  launch_configurations_by_name_faithful P ->
  (forall s, dict_get params "launch_config_name" ≠ PStr s) ->
  let r := copy_auto_scaling_group P g params w in
  (forall e, e ∈ trace r -> is_creation e.1 = false) /\
  (forall result, outcome r ≠ inr result).
Proof. apply no_launch_configuration_no_creation. Qed.

Lemma outcome_bind_inr {A B} (m : M (World P) A) (k : A -> M (World P) B) w b :
  outcome (bind m k w) = inr b ->
  exists a w1 t1, m w = mkRun (inr a) w1 t1 /\ outcome (k a w1) = inr b.
Proof.
  unfold bind. destruct (m w) as [[exn|a] w1 t1]; [done|].
  rewrite outcome_prepend. eauto.
Qed.

(** The wait returns only when its four names are bound. *)
Lemma wait_for_instances_block_returns g params group_name wait_timeout w w1 t1 :
  wait_for_instances_block P g params group_name wait_timeout w
    = mkRun (inr tt) w1 t1 ->
  is_Some (glob_wait_for_new_inst P g) /\ is_Some (glob_connection P g) /\
  is_Some (glob_desired_capacity P g) /\ is_Some (glob_wait_for_elb P g).
Proof.
  unfold wait_for_instances_block.
  destruct (glob_wait_for_new_inst P g) as [f|]; cbn [global];
    [rewrite bind_ret|by rewrite bind_raise].
  destruct (glob_connection P g) as [c|]; cbn [global];
    [rewrite bind_ret|by rewrite bind_raise].
  destruct (glob_desired_capacity P g) as [d|]; cbn [global];
    [rewrite bind_ret|by rewrite bind_raise].
  rewrite bind_call_external.
  destruct (f _ _ _ _ _ _ w) as [[exn|[]] w2]; [done|].
  destruct (glob_wait_for_elb P g) as [h|]; cbn [global];
    [rewrite bind_ret|by rewrite bind_raise].
  intros _. eauto 10.
Qed.

(** X13: with [wait_for_instances] True the script returns only if
    [wait_for_new_inst], [connection], [desired_capacity] and
    [wait_for_elb] are all bound: none of the four being bound in the
    file, a copy with the wait asked for never returns there. *)
Theorem wait_needs_its_four_names g params w result :
  is_True (dict_get params "wait_for_instances") = true ->
  outcome (copy_auto_scaling_group P g params w) = inr result ->
  is_Some (glob_wait_for_new_inst P g) /\ is_Some (glob_connection P g) /\
  is_Some (glob_desired_capacity P g) /\ is_Some (glob_wait_for_elb P g).
Proof.
  intros Hwait. rewrite copy_auto_scaling_group_run. cbv zeta.
  repeat case_match; rewrite ?outcome_prepend, ?outcome_except_fail_json;
    cbn [outcome]; try done.
  rewrite inner_try_run. cbv zeta. rewrite Hwait.
  repeat case_match; rewrite ?outcome_prepend; cbn [outcome]; try done.
  match goal with
  | Hbind : outcome (prepend _ _) = inr _ |- _ =>
      rewrite outcome_prepend in Hbind;
      apply outcome_bind_inr in Hbind as ([] & w' & t' & Hblock & _)
  end.
  intros _. by eapply wait_for_instances_block_returns.
Qed.

End Reads.

(** ** The entry point, again *)

Section MainFurther.

Context (P : Provider).
Implicit Types (w : World P) (e : Event) (g : Globals P).

Lemma bind_returned {A B} (m : M (World P) A) (k : A -> M (World P) B)
    w a w1 t1 :
  m w = mkRun (inr a) w1 t1 -> bind m k w = prepend t1 (k a w1).
Proof. intros Hm. unfold bind. by rewrite Hm. Qed.

(** When [main] exits through [exit_json], [copy_auto_scaling_group] has
    returned on parameters with declared keys only. *)
Lemma main_returns g ec2_argument_spec HAS_BOTO connect_to_aws args w out :
  outcome (main P g ec2_argument_spec HAS_BOTO connect_to_aws args w) = inr out ->
  exists params result,
    dom params ⊆ dom (argument_spec ec2_argument_spec) /\
    outcome (copy_auto_scaling_group P g params w) = inr result.
Proof.
  unfold main, AnsibleModule, fail_json.
  destruct (decide (dom args ⊆ _)) as [Hdeclared|];
    [|by rewrite bind_raise].
  destruct (decide (dom (filter _ _) ⊆ _)); [|by rewrite bind_raise].
  rewrite bind_ret.
  destruct HAS_BOTO; cbn [negb]; [|by rewrite bind_raise].
  rewrite bind_ret.
  destruct connect_to_aws as [[] []|msg]; cbn [negb orb];
    try by rewrite bind_raise.
  rewrite bind_ret. intros Hout.
  apply outcome_bind_inr in Hout as (result & w1 & t1 & Hcopy & _).
  eexists _, result. split; [|by rewrite Hcopy].
  rewrite dom_union_L, dom_fmap_L. set_solver.
Qed.

(** X14: through [main] nothing is ever copied.  The keys [main] declares
    do not include "launch_config_name", so the launch configuration is
    looked up under None; a provider that only returns launch
    configurations with a name asked for returns none, and [main] creates
    no group, policy or alarm and never reaches [exit_json]. *)
Theorem main_creates_nothing
    g ec2_argument_spec HAS_BOTO connect_to_aws args w :
  launch_configurations_by_name_faithful P ->
  "launch_config_name" ∉ dom ec2_argument_spec ->
  let r := main P g ec2_argument_spec HAS_BOTO connect_to_aws args w in
  (forall e, e ∈ trace r -> is_creation e.1 = false) /\
  (forall out, outcome r ≠ inr out).
Proof.
  intros Hfaithful Hec2. cbv zeta.
  assert (forall params,
            dom params ⊆ dom (argument_spec ec2_argument_spec) ->
            forall s, dict_get params "launch_config_name" ≠ PStr s) as Hnone.
  { intros params Hdom s.
    rewrite (undeclared_key_is_None (argument_spec ec2_argument_spec)); [done|done|].
    unfold argument_spec, update.
    rewrite dom_union_L, !dom_insert_L, dom_empty_L. set_unfold. naive_solver. }
  split.
  - intros e Hin. apply main_events in Hin as (params & Hdom & Hin).
    by apply (no_launch_configuration_no_creation P g params w Hfaithful
                (Hnone params Hdom)).
  - intros out Hout. apply main_returns in Hout as (params & result & Hdom & Hout).
    by apply (no_launch_configuration_no_creation P g params w Hfaithful
                (Hnone params Hdom)) in Hout.
Qed.

(** X15: once the arguments are accepted, [main] checks for boto, then for
    the two connections, before anything is sent: without boto, with a
    missing connection or without credentials it makes no API call and
    ends through [fail_json], with the message of lines 163, 174-175 or
    177, in that order of precedence. *)
Theorem main_setup_failures
    g ec2_argument_spec HAS_BOTO connect_to_aws args w params :
  AnsibleModule (argument_spec ec2_argument_spec) args w
    = mkRun (inr params) w [] ->
  HAS_BOTO = false \/ connect_to_aws ≠ Connected true true ->
  let r := main P g ec2_argument_spec HAS_BOTO connect_to_aws args w in
  trace r = [] /\
  outcome r =
    inl (FailJson
           (if negb HAS_BOTO then "boto required for this module"
            else match connect_to_aws with
                 | NoAuthHandlerFound msg => msg
                 | Connected _ _ =>
                     "failed to connect to AWS for the given region: "
                     +:+ py_str (dict_get params "region")
                 end)).
Proof.
  intros Haccepted Hfailure. cbv zeta. unfold main.
  rewrite (bind_returned _ _ _ _ _ _ Haccepted), prepend_nil.
  unfold fail_json.
  destruct HAS_BOTO; cbn [negb]; [|by rewrite bind_raise].
  rewrite bind_ret.
  destruct Hfailure as [|Hconnection]; [done|].
  destruct connect_to_aws as [[] []|msg]; cbn [negb orb];
    try by rewrite bind_raise.
  done.
Qed.

End MainFurther.

(** ** Witnesses of the further properties *)

Lemma InMemory_launch_configurations_by_name_faithful :
  launch_configurations_by_name_faithful InMemory.
Proof.
  intros names c configurations c' [= <- _] lc Hin.
  by apply list_elem_of_filter in Hin as [? _].
Qed.

Lemma rejection_after_group_creation_ends_run_witness :
  (let r := copy_auto_scaling_group InMemory globals_with_report
              params_same_name account in
   length (trace r) = 4%nat /\
   outcome r = inl (FailJson already_exists)) /\
  (let r := copy_auto_scaling_group AlarmLimit alarm_limit_globals
              params_with_launch_config account in
   created_groups (trace r) = [asg_prod_copy] /\
   created_policies (trace r) = [policy_up_copy] /\
   outcome r = inl (FailJson limit_exceeded) /\
   exists before,
     trace r = before ++ [(CreateAlarm alarm_up_copy, Rejected limit_exceeded)]).
Proof.
  split; cbv zeta.
  - split; [vm_compute; reflexivity|].
    apply (rejection_after_group_creation_ends_run InMemory globals_with_report
             params_same_name account
             (new_group (PStr "asg-prod") (PStr "lc-next") asg_prod lc_next)
             (Rejected already_exists)
             (CreateAutoScalingGroup
                (new_group (PStr "asg-prod") (PStr "lc-next") asg_prod lc_next))
             already_exists); at_position 3%nat.
  - split; [vm_compute; reflexivity|]. split; [vm_compute; reflexivity|].
    apply (rejection_after_group_creation_ends_run AlarmLimit
             alarm_limit_globals params_with_launch_config account
             asg_prod_copy Created (CreateAlarm alarm_up_copy) limit_exceeded);
      [at_position 3%nat|at_position 7%nat].
Defined.

Lemma group_creation_follows_the_three_lookups_witness :
  let r := copy_auto_scaling_group InMemory globals_with_report
             params_with_launch_config account in
  (CreateAutoScalingGroup asg_prod_copy, Created) ∈ trace r /\
  exists source_group source_policies launch_config others rest,
    trace r =
      (GetAllGroups [PStr "asg-prod"], Groups [source_group])
      :: (GetAllPolicies (PStr "asg-prod"), Policies source_policies)
      :: (GetAllLaunchConfigurations [PStr "lc-next"],
          LaunchConfigurations (launch_config :: others))
      :: (CreateAutoScalingGroup asg_prod_copy, Created) :: rest /\
    forall ag' rep', (CreateAutoScalingGroup ag', rep') ∉ rest.
Proof.
  cbv zeta. split; [at_position 3%nat|].
  apply (group_creation_follows_the_three_lookups InMemory globals_with_report
           params_with_launch_config account asg_prod_copy Created).
  at_position 3%nat.
Defined.

Lemma policies_and_alarms_follow_group_creation_witness :
  let r := copy_auto_scaling_group InMemory globals_with_report
             params_with_launch_config account in
  (CreateAlarm alarm_up_copy, Created) ∈ trace r /\
  exists ag as_group others,
    trace r !! 3%nat = Some (CreateAutoScalingGroup ag, Created) /\
    trace r !! 4%nat
      = Some (GetAllGroups [PStr "asg-prod-copy"], Groups (as_group :: others)).
Proof.
  cbv zeta. split; [at_position 7%nat|].
  apply (policies_and_alarms_follow_group_creation InMemory globals_with_report
           params_with_launch_config account (CreateAlarm alarm_up_copy, Created)).
  - at_position 7%nat.
  - reflexivity.
Defined.

Lemma returned_properties_are_of_the_refetched_group_witness :
  let r := copy_auto_scaling_group InMemory globals_with_report
             params_with_launch_config account in
  outcome r = inr (true, asg_prod_copy_properties) /\
  exists get_properties as_group others,
    glob_get_properties InMemory globals_with_report = Some get_properties /\
    trace r !! 4%nat
      = Some (GetAllGroups [PStr "asg-prod-copy"], Groups (as_group :: others)) /\
    get_properties as_group = inr asg_prod_copy_properties.
Proof.
  cbv zeta.
  assert (outcome (copy_auto_scaling_group InMemory globals_with_report
                     params_with_launch_config account)
            = inr (true, asg_prod_copy_properties)) as Hreturned.
  { vm_compute; reflexivity. }
  split; [exact Hreturned|].
  exact (proj2 (returned_properties_are_of_the_refetched_group InMemory
                  globals_with_report params_with_launch_config account
                  true asg_prod_copy_properties Hreturned)).
Defined.

Lemma returning_run_call_count_witness :
  let r := copy_auto_scaling_group InMemory globals_with_report
             params_with_launch_config account in
  outcome r = inr (true, asg_prod_copy_properties) /\
  exists source_policies,
    trace r !! 1%nat
      = Some (GetAllPolicies (PStr "asg-prod"), Policies source_policies) /\
    length (trace r) = (5 + 3 * length source_policies)%nat.
Proof.
  cbv zeta.
  assert (outcome (copy_auto_scaling_group InMemory globals_with_report
                     params_with_launch_config account)
            = inr (true, asg_prod_copy_properties)) as Hreturned.
  { vm_compute; reflexivity. }
  split; [exact Hreturned|].
  exact (returning_run_call_count InMemory globals_with_report
           params_with_launch_config account _ Hreturned).
Defined.

Lemma returning_run_creates_every_policy_witness :
  let r := copy_auto_scaling_group InMemory globals_with_report
             params_with_launch_config account in
  outcome r = inr (true, asg_prod_copy_properties) /\
  exists source_policies,
    (GetAllPolicies (PStr "asg-prod"), Policies source_policies) ∈ trace r /\
    created_policies (trace r)
      = (fun sp => set_as_group sp (PStr "asg-prod-copy")) <$> source_policies /\
    as_name <$> created_policies (trace r) = as_name <$> source_policies /\
    length (created_alarms (trace r)) = length source_policies.
Proof.
  cbv zeta.
  assert (outcome (copy_auto_scaling_group InMemory globals_with_report
                     params_with_launch_config account)
            = inr (true, asg_prod_copy_properties)) as Hreturned.
  { vm_compute; reflexivity. }
  split; [exact Hreturned|].
  exact (returning_run_creates_every_policy InMemory globals_with_report
           params_with_launch_config account _
           InMemory_lookup_by_name_faithful Hreturned).
Defined.

Lemma created_policies_are_a_prefix_of_the_source_policies_witness :
  let r := copy_auto_scaling_group InMemory globals_with_report
             params_with_launch_config account_without_alarms in
  outcome r = inl IndexError /\
  created_policies (trace r) = [policy_up_copy] /\
  as_name policy_up_copy = PStr "asg-prod" /\
  created_policies (trace r) `prefix_of` [policy_up_copy; policy_down_copy] /\
  as_name <$> created_policies (trace r)
    `prefix_of` [PStr "asg-prod"; PStr "asg-prod"].
Proof.
  cbv zeta.
  split; [vm_compute; reflexivity|]. split; [vm_compute; reflexivity|].
  split; [reflexivity|].
  apply (created_policies_are_a_prefix_of_the_source_policies InMemory
           globals_with_report params_with_launch_config
           account_without_alarms [policy_up; policy_down]
           InMemory_lookup_by_name_faithful).
  vm_compute; reflexivity.
Defined.

Lemma created_alarm_is_the_looked_up_alarm_witness :
  let t := trace (copy_auto_scaling_group InMemory globals_with_report
                    params_with_launch_config account) in
  t !! 7%nat = Some (CreateAlarm alarm_up_copy, Created) /\
  exists j names first others,
    7%nat = S j /\
    t !! j = Some (DescribeAlarms names, Alarms (first :: others)) /\
    alarm_name alarm_up_copy = alarm_name first /\
    metric alarm_up_copy = metric first /\
    comparison alarm_up_copy = comparison first /\
    threshold alarm_up_copy = threshold first /\
    alarm_actions alarm_up_copy = alarm_actions first /\
    forall key, key ≠ "AutoScalingGroupName" ->
                dimensions alarm_up_copy !! key = dimensions first !! key.
Proof.
  cbv zeta.
  assert (trace (copy_auto_scaling_group InMemory globals_with_report
                   params_with_launch_config account) !! 7%nat
            = Some (CreateAlarm alarm_up_copy, Created)) as Hseventh.
  { vm_compute; reflexivity. }
  split; [exact Hseventh|].
  exact (created_alarm_is_the_looked_up_alarm InMemory globals_with_report
           params_with_launch_config account 7%nat alarm_up_copy Created
           Hseventh).
Defined.

Lemma unbound_get_properties_stops_the_copy_witness :
  let r := copy_auto_scaling_group InMemory (globals_of_file InMemory)
             params_with_launch_config account in
  outcome r = inl (NameError "get_properties") /\
  created_groups (trace r) = [asg_prod_copy] /\
  forall e, e ∈ trace r -> is_policy_or_alarm_creation e.1 = false.
Proof.
  cbv zeta.
  destruct (unbound_get_properties_stops_the_copy InMemory
              (globals_of_file InMemory) params_with_launch_config account
              eq_refl) as (_ & Hnothing & Hfifth).
  split; [|split; [vm_compute; reflexivity|exact Hnothing]].
  apply (Hfifth asg_prod_copy []). vm_compute; reflexivity.
Defined.

Lemma run_depends_on_three_keys_and_get_properties_witness :
  copy_auto_scaling_group InMemory globals_with_wait
    (<["name" := PStr "another-name"]>
     (<["load_balancers" := PStr "elb-other"]> params_with_launch_config))
    account
  = copy_auto_scaling_group InMemory globals_with_report
      params_with_launch_config account.
Proof.
  apply (run_depends_on_three_keys_and_get_properties InMemory
           globals_with_report globals_with_wait params_with_launch_config);
    reflexivity.
Defined.

Lemma load_balancers_inherited_when_launch_config_name_falsy_witness :
  let r := copy_auto_scaling_group Unfiltered (globals_of_file Unfiltered)
             copy_params account in
  let ag := new_group (PStr "asg-prod-copy") PNone asg_prod lc_prod in
  (CreateAutoScalingGroup ag, Created) ∈ trace r /\
  load_balancers ag = [PStr "elb-prod"].
Proof.
  cbv zeta. split; [at_position 3%nat|].
  apply (load_balancers_inherited_when_launch_config_name_falsy Unfiltered
           (globals_of_file Unfiltered) copy_params account asg_prod account
           _ Created).
  - reflexivity.
  - vm_compute; reflexivity.
  - at_position 3%nat.
Defined.

Lemma copy_needs_a_launch_config_name_witness :
  let r := copy_auto_scaling_group InMemory globals_with_report
             copy_params account in
  dict_get copy_params "launch_config_name" = PNone /\
  (forall e, e ∈ trace r -> is_creation e.1 = false) /\
  (forall result, outcome r ≠ inr result).
Proof.
  cbv zeta. split; [reflexivity|].
  apply (copy_needs_a_launch_config_name InMemory globals_with_report
           copy_params account InMemory_launch_configurations_by_name_faithful).
  intros s. vm_compute. discriminate.
Defined.

Lemma wait_needs_its_four_names_witness :
  let r := copy_auto_scaling_group InMemory globals_with_wait
             params_with_wait account in
  outcome r = inr (true, asg_prod_copy_properties) /\
  is_Some (glob_wait_for_new_inst InMemory globals_with_wait) /\
  is_Some (glob_connection InMemory globals_with_wait) /\
  is_Some (glob_desired_capacity InMemory globals_with_wait) /\
  is_Some (glob_wait_for_elb InMemory globals_with_wait).
Proof.
  cbv zeta.
  assert (outcome (copy_auto_scaling_group InMemory globals_with_wait
                     params_with_wait account)
            = inr (true, asg_prod_copy_properties)) as Hreturned.
  { vm_compute; reflexivity. }
  split; [exact Hreturned|].
  exact (wait_needs_its_four_names InMemory globals_with_wait params_with_wait
           account _ eq_refl Hreturned).
Defined.

Lemma ansible_ec2_argument_spec_no_launch_config_name :
  "launch_config_name" ∉ dom ansible_ec2_argument_spec.
Proof. apply not_elem_of_dom. vm_compute; reflexivity. Qed.

Lemma main_creates_nothing_witness :
  let r := main InMemory globals_with_report ansible_ec2_argument_spec true
             (Connected true true) task_args account in
  outcome r = inl IndexError /\
  (forall e, e ∈ trace r -> is_creation e.1 = false) /\
  (forall out, outcome r ≠ inr out).
Proof.
  cbv zeta. split; [vm_compute; reflexivity|].
  exact (main_creates_nothing InMemory globals_with_report
           ansible_ec2_argument_spec true (Connected true true) task_args
           account InMemory_launch_configurations_by_name_faithful
           ansible_ec2_argument_spec_no_launch_config_name).
Defined.

Lemma task_args_accepted :
  AnsibleModule (argument_spec ansible_ec2_argument_spec) task_args account
    = mkRun (inr task_params) account [].
Proof. vm_compute; reflexivity. Qed.

Lemma main_setup_failures_witness :
  (let r := main InMemory globals_with_report ansible_ec2_argument_spec false
              (NoAuthHandlerFound "No handler was ready to authenticate")
              task_args account in
   trace r = [] /\
   outcome r = inl (FailJson "boto required for this module")) /\
  (let r := main InMemory globals_with_report ansible_ec2_argument_spec true
              (NoAuthHandlerFound "No handler was ready to authenticate")
              task_args account in
   trace r = [] /\
   outcome r = inl (FailJson "No handler was ready to authenticate")) /\
  (let r := main InMemory globals_with_report ansible_ec2_argument_spec true
              (Connected true false) task_args account in
   trace r = [] /\
   outcome r =
     inl (FailJson "failed to connect to AWS for the given region: us-east-1")).
Proof.
  split; [|split]; cbv zeta.
  - apply (main_setup_failures InMemory globals_with_report
             ansible_ec2_argument_spec false
             (NoAuthHandlerFound "No handler was ready to authenticate")
             task_args account task_params task_args_accepted).
    by left.
  - apply (main_setup_failures InMemory globals_with_report
             ansible_ec2_argument_spec true
             (NoAuthHandlerFound "No handler was ready to authenticate")
             task_args account task_params task_args_accepted).
    by right.
  - apply (main_setup_failures InMemory globals_with_report
             ansible_ec2_argument_spec true (Connected true false)
             task_args account task_params task_args_accepted).
    by right.
Defined.
